(** * The LLM provider layer of vibe-zotero-translate

    A shallow embedding of [src/modules/llm-service.ts]: the configuration
    resolver ([getStringPref], [getConfig]), the prompt builder, the two
    request-body builders, the two HTTP callers, the dispatcher [callModel]
    and the two public operations [translateText] and [testConnection].

    Conventions of the embedding.
    - A JavaScript string is the list of its UTF-16 code units ([jsstring]).
    - A JavaScript value that the code handles dynamically (preference
      values, request bodies, parsed responses) is a [JsValue].
    - A function that may throw returns an [Outcome]; an [async] function
      that talks to the network is a computation over the log of the HTTP
      requests issued so far ([Async]).  The log survives an exception, as
      the requests already sent are not undone by a [throw].
    - [Zotero.Prefs], [Zotero.HTTP.request] and the built-ins of the host
      engine ([JSON.parse], [JSON.stringify], [encodeURIComponent], the
      conversion of non-string values to strings and the messages of the
      engine's own [TypeError]s) are parameters of the development.
    - The preference store is read afresh by every [getConfig], as in the
      source, and is taken not to change while one operation runs.
    - Calls to [debug] only write to the log file and are left out.

    The source file is kept in two revisions that differ in the templates
    of [buildSystemPrompt] alone; the embedding follows the first, with its
    four templates.  In both, the template chosen depends on whether a
    screenshot is present. *)

From Stdlib Require Import List NArith ZArith Bool Ascii String DecimalString.
Import ListNotations.
Set Warnings "-register-all".
Local Open Scope N_scope.
Local Open Scope list_scope.

(* ================================================================= *)
(** ** JavaScript strings *)

Module JsStr.

(** A UTF-16 code unit. *)
Definition unit16 := N.

Definition jsstring := list unit16.

(** An ASCII literal of the source as a [jsstring]. *)
Fixpoint lit (s : string) : jsstring :=
  match s with
  | EmptyString => []
  | String c r => N_of_ascii c :: lit r
  end.

Definition empty : jsstring := [].

Definition dquote : unit16 := 34.   (* the double-quote character *)
Definition newline : unit16 := 10.  (* \n *)
Definition tab : unit16 := 9.       (* \t *)
Definition space : unit16 := 32.
Definition slash : unit16 := 47.    (* / *)

Fixpoint eqb (a b : jsstring) : bool :=
  match a, b with
  | [], [] => true
  | x :: a', y :: b' => (x =? y) && eqb a' b'
  | _, _ => false
  end.

(** [s.length > 0], which is also the truthiness of a string. *)
Definition nonEmpty (s : jsstring) : bool :=
  match s with [] => false | _ :: _ => true end.

(** [s.startsWith(p)] *)
Fixpoint startsWith (s p : jsstring) {struct p} : bool :=
  match p, s with
  | [], _ => true
  | x :: p', y :: s' => (x =? y) && startsWith s' p'
  | _ :: _, [] => false
  end.

(** [s.endsWith(p)] *)
Definition endsWith (s p : jsstring) : bool :=
  startsWith (rev s) (rev p).

(** [s.includes(p)]: [p] occurs in [s] as a contiguous substring. *)
Fixpoint includes (s p : jsstring) : bool :=
  startsWith s p ||
  match s with
  | [] => false
  | _ :: s' => includes s' p
  end.

(** ECMAScript WhiteSpace and LineTerminator code points, the ones
    [String.prototype.trim] removes.  All of them lie in the BMP. *)
Definition isWhiteSpace (c : unit16) : bool :=
  ((9 <=? c) && (c <=? 13))
  || (c =? 32) || (c =? 160) || (c =? 5760)
  || ((8192 <=? c) && (c <=? 8202))
  || (c =? 8232) || (c =? 8233) || (c =? 8239) || (c =? 8287)
  || (c =? 12288) || (c =? 65279).

Fixpoint trimStart (s : jsstring) : jsstring :=
  match s with
  | [] => []
  | c :: r => if isWhiteSpace c then trimStart r else s
  end.

Definition trimEnd (s : jsstring) : jsstring :=
  rev (trimStart (rev s)).

(** [s.trim()] *)
Definition trim (s : jsstring) : jsstring :=
  trimEnd (trimStart s).

(** [s.substring(a, b)]; the two indices are swapped when [a > b] and
    clamped to the length of [s]. *)
Definition substring (a b : nat) (s : jsstring) : jsstring :=
  let lo := Nat.min a b in
  let hi := Nat.max a b in
  firstn (hi - lo) (skipn lo s).

(** [s.replace(/\/+$/, empty)].  The pattern has no [m] flag, so [$] is the
    end of the input; the leftmost match is the whole run of slashes that
    reaches the end of the string, and it is removed. *)
Fixpoint dropLeadingSlashes (s : jsstring) : jsstring :=
  match s with
  | [] => []
  | c :: r => if c =? slash then dropLeadingSlashes r else s
  end.

Definition stripTrailingSlashes (s : jsstring) : jsstring :=
  rev (dropLeadingSlashes (rev s)).

(** [s.split(sep)] for a separator of one code unit. *)
Fixpoint split (sep : unit16) (s : jsstring) : list jsstring :=
  match s with
  | [] => [[]]
  | c :: r =>
      match split sep r with
      | [] => [[]]   (* unreachable: [split] never returns the empty list *)
      | w :: ws => if c =? sep then [] :: w :: ws else (c :: w) :: ws
      end
  end.

(** The decimal digits of a non-negative integer, as [`${n}`] prints it. *)
Definition ofN (n : N) : jsstring :=
  lit (NilEmpty.string_of_uint (N.to_uint n)).

(** ASCII lower-casing, used only to state case-insensitive containment. *)
Definition toLowerAscii (c : unit16) : unit16 :=
  if (65 <=? c) && (c <=? 90) then c + 32 else c.

Definition includesIgnoringCase (s p : jsstring) : bool :=
  includes (map toLowerAscii s) (map toLowerAscii p).

End JsStr.

Import JsStr.

(* ================================================================= *)
(** ** JavaScript values, exceptions and outcomes *)

(** A finite JavaScript number, written as the decimal [mantissa * 10^exp10]
    (every finite double has such a writing; zero has mantissa 0).  The code
    only carries numbers around and tests them for truthiness. *)
Record JsNumber := mkNumber { mantissa : Z; exp10 : Z }.

Definition intNumber (n : Z) : JsNumber := mkNumber n 0.

(** The values that preferences, request bodies and JSON responses hold. *)
Inductive JsValue :=
| VUndefined
| VNull
| VBool (b : bool)
| VNum (n : JsNumber)
| VStr (s : jsstring)
| VArr (items : list JsValue)
| VObj (fields : list (jsstring * JsValue)).

(** An exception object: [name] and [message], as [Error.prototype] has
    them.  [new Error(m)] is [mkError (lit "Error") m]. *)
Record JsError := mkError { err_name : jsstring; err_message : jsstring }.

Definition newError (message : jsstring) : JsError :=
  mkError (lit "Error") message.

(** [String(e)] for an exception object ([Error.prototype.toString]). *)
Definition errorToString (e : JsError) : jsstring :=
  match err_name e, err_message e with
  | [], m => m
  | n, [] => n
  | n, m => n ++ lit ": " ++ m
  end.

(** The result of running code that may throw. *)
Inductive Outcome (A : Type) :=
| Returns (a : A)
| Throws (e : JsError).
Arguments Returns {A} a.
Arguments Throws {A} e.

(** Truthiness ([ToBoolean]). *)
Definition truthy (v : JsValue) : bool :=
  match v with
  | VUndefined | VNull => false
  | VBool b => b
  | VNum n => negb (Z.eqb (mantissa n) 0)
  | VStr s => nonEmpty s
  | VArr _ | VObj _ => true
  end.

(** [a || b] on values. *)
Definition jsOr (a b : JsValue) : JsValue :=
  if truthy a then a else b.

(** Own-property lookup in an object literal or a parsed JSON object; with
    duplicate keys the last one wins, as in [JSON.parse]. *)
Fixpoint lookupField (k : jsstring) (fields : list (jsstring * JsValue))
  : option JsValue :=
  match fields with
  | [] => None
  | (k', v) :: rest =>
      match lookupField k rest with
      | Some w => Some w
      | None => if JsStr.eqb k k' then Some v else None
      end
  end.

(** [v?.k] for a property name [k] that is not one of the built-in
    properties of strings, arrays or other primitives (the code reads
    [output], [message], [content], [choices] and [text] only). *)
Definition optField (v : JsValue) (k : jsstring) : JsValue :=
  match v with
  | VObj fields =>
      match lookupField k fields with
      | Some w => w
      | None => VUndefined
      end
  | _ => VUndefined
  end.

(** [v?.[0]]: the first element of an array, the first code unit of a
    string, the own property named 0 of an object. *)
Definition optIndex0 (v : JsValue) : JsValue :=
  match v with
  | VArr (x :: _) => x
  | VStr (c :: _) => VStr [c]
  | VObj fields =>
      match lookupField (lit "0") fields with
      | Some w => w
      | None => VUndefined
      end
  | _ => VUndefined
  end.

(** The places where the engine itself throws a [TypeError]. *)
Inductive EngineFault :=
| FilterNotCallable   (* [content.filter] where [content] is no array *)
| PropertyOfNullish   (* [part.text] where [part] is null *)
| TrimNotCallable.    (* [result.trim] where [result] is no string *)

(** The built-ins of the host engine the code relies on. *)
Record Host := mkHost {
  (** [JSON.parse(text)]; throws a [SyntaxError] on malformed input. *)
  JSON_parse : jsstring -> Outcome JsValue;
  (** [JSON.stringify(value)] for a value other than [undefined]. *)
  JSON_stringify : JsValue -> jsstring;
  (** [encodeURIComponent(s)]; throws a [URIError] on a lone surrogate. *)
  encodeURIComponent : jsstring -> Outcome jsstring;
  (** [String(v)] for a value [v] that is not a string. *)
  toStringOther : JsValue -> Outcome jsstring;
  (** The exception the engine throws at each [EngineFault]. *)
  engineError : EngineFault -> JsError
}.

(* ================================================================= *)
(** ** The HTTP interface of the host application *)

(** What [Zotero.HTTP.request(method, url, options)] is called with. *)
Record HttpRequest := mkRequest {
  req_method : jsstring;
  req_url : jsstring;
  req_headers : list (jsstring * jsstring);
  req_body : jsstring;
  req_responseType : jsstring
}.

(** The [XMLHttpRequest] a request resolves with. *)
Record Xhr := mkXhr {
  xhr_status : N;
  xhr_responseText : jsstring;
  xhr_response : JsValue
}.

(** The exception a request rejects with: the failed [XMLHttpRequest] when
    the exception carries one ([e.xmlhttp]), and the exception itself. *)
Record HttpException := mkHttpException {
  exn_xmlhttp : option (N * jsstring);   (* status, responseText *)
  exn_error : JsError
}.

Inductive HttpResult :=
| Resolved (xhr : Xhr)
| Rejected (e : HttpException).

(** The network as seen by one run: the answer to a request may depend on
    the requests sent before it. *)
Definition Network := list HttpRequest -> HttpRequest -> HttpResult.

(** [Zotero.Prefs.get(name, true)]: it may throw, or return any value. *)
Definition PrefStore := jsstring -> Outcome JsValue.

(** An [async] function: it reads and extends the log of requests sent. *)
Definition Async (A : Type) := list HttpRequest -> Outcome A * list HttpRequest.

Definition ret {A} (a : A) : Async A := fun log => (Returns a, log).

Definition throw {A} (e : JsError) : Async A := fun log => (Throws e, log).

Definition bind {A B} (m : Async A) (k : A -> Async B) : Async B :=
  fun log =>
    match m log with
    | (Returns a, log') => k a log'
    | (Throws e, log') => (Throws e, log')
    end.

(** A synchronous computation used inside an [async] function. *)
Definition lift {A} (o : Outcome A) : Async A := fun log => (o, log).

(** [try { body } catch (e) { handler(e) }] *)
Definition tryCatch {A} (body : Async A) (handler : JsError -> Async A) : Async A :=
  fun log =>
    match body log with
    | (Returns a, log') => (Returns a, log')
    | (Throws e, log') => handler e log'
    end.

Declare Scope async_scope.
Delimit Scope async_scope with async.
Notation "x <- m ;; k" := (bind m (fun x => k))
  (at level 61, m at next level, right associativity) : async_scope.

(* ================================================================= *)
(** ** The service *)

Definition PREF_PREFIX : jsstring := lit "extensions.vibe-zotero-translate".

Record TranslationInput := mkInput {
  text : jsstring;
  pageScreenshot : option jsstring;   (* [string | null] *)
  pageNumber : option Z               (* [number | null] *)
}.

(** The object [getConfig] returns. *)
Record Config := mkConfig {
  provider : jsstring;
  apiKey : jsstring;
  modelId : jsstring;
  region : jsstring;
  openaiEndpoint : jsstring
}.

(** Truthiness of a [string | null] argument. *)
Definition present (image : option jsstring) : bool :=
  match image with
  | Some s => nonEmpty s
  | None => false
  end.

Section Service.

Variable host : Host.
Variable prefs : PrefStore.
Variable network : Network.

(** [getStringPref(key, defaultValue)].  A value that is not a string is
    either falsy or has no [trim] method; the [TypeError] of the latter is
    caught like an exception of [Zotero.Prefs.get] itself. *)
Definition getStringPref (key defaultValue : jsstring) : jsstring :=
  match prefs (PREF_PREFIX ++ lit "." ++ key) with
  | Returns (VStr val) =>
      if nonEmpty val && (0 <? List.length (trim val))%nat then trim val
      else defaultValue
  | Returns _ => defaultValue
  | Throws _ => defaultValue
  end.

(** [isSingleWord(text)] *)
Definition isSingleWord (text : jsstring) : bool :=
  let trimmed := trim text in
  negb (includes trimmed (lit " "))
  && negb (includes trimmed [newline])
  && negb (includes trimmed [tab]).

(** [getConfig()] *)
Definition getConfig : Outcome Config :=
  let provider := getStringPref (lit "provider") (lit "bedrock") in
  if JsStr.eqb provider (lit "openai") then
    let apiKey := getStringPref (lit "openai.apiKey") empty in
    let modelId := getStringPref (lit "openai.modelId") (lit "gpt-4o") in
    let endpoint := getStringPref (lit "openai.endpoint")
                      (lit "https://api.openai.com/v1/chat/completions") in
    if negb (nonEmpty apiKey) then
      Throws (newError (lit "OpenAI API key not configured. Please set it in Vibe Translate preferences."))
    else
      Returns (mkConfig provider apiKey modelId empty endpoint)
  else
    let apiKey := getStringPref (lit "bedrock.apiKey") empty in
    let modelId := getStringPref (lit "bedrock.modelId")
                     (lit "us.anthropic.claude-sonnet-4-5-20250929-v1:0") in
    let region := getStringPref (lit "bedrock.region") (lit "us-east-1") in
    if negb (nonEmpty apiKey) then
      Throws (newError (lit "Bedrock API key not configured. Please set it in Vibe Translate preferences."))
    else
      Returns (mkConfig provider apiKey modelId region empty).

(** *** Prompt building *)

(** [buildSystemPrompt(targetLanguage, singleWord, hasScreenshot)].  The
    characters outside ASCII are given by their code units. *)
Definition buildSystemPrompt (targetLanguage : jsstring)
  (singleWord hasScreenshot : bool) : jsstring :=
  if singleWord && hasScreenshot then
    lit "You are a concise dictionary. Translate the word to " ++ targetLanguage ++ lit "." ++ [newline] ++
    lit "STRICT rules: Only output in the exact format below. No explanations, no examples, no extra text." ++ [newline] ++
    lit "Use fixed-width alignment: pad the part-of-speech tag to exactly 6 characters wide." ++ [newline] ++
    [newline] ++
    lit "Format:" ++ [newline] ++
    lit "[" ++ [0x00CB; 0x00D8; 0x00E7; 0x00CA; 0x00C4; 0x00DF] ++ lit "  ] " ++ [0x00C2; 0x00EA; 0x00B4; 0x2030; 0x03C0; 0x00E2] ++ [newline] ++
    [0xF8FF; 0x00FC; 0x00EC; 0x00E5] ++ lit " " ++ [0x2030; 0x220F; 0x00E4; 0x2030; 0x220F; 0x00E3; 0x00CA; 0x00F1; 0x00E1; 0x00C2; 0x00EA; 0x00B4; 0x2030; 0x03C0; 0x00E2] ++ [newline] ++
    [newline] ++
    lit "Example output for " ++ [dquote] ++ lit "bank" ++ [dquote] ++ lit ":" ++ [newline] ++
    lit "[n.   ] " ++ [0x00C8; 0x00EC; 0x2202; 0x00CB; 0x00B0; 0x00E5] ++ lit "; " ++ [0x00CA; 0x2264; 0x2265; 0x00C2; 0x2264; 0x220F] ++ [newline] ++
    lit "[v.   ] " ++ [0x00C2; 0x2260; 0x00F2; 0x00CA; 0x00A8; 0x00E6] ++ [newline] ++
    [0xF8FF; 0x00FC; 0x00EC; 0x00E5] ++ lit " " ++ [0x00CA; 0x2260; 0x00A7; 0x00C2; 0x00A7; 0x00D1; 0x00CA; 0x00E5; 0x00E1; dquote; 0x00CA; 0x2264; 0x2265; 0x00C2; 0x2264; 0x220F; dquote]
  else if singleWord && negb hasScreenshot then
    lit "You are a concise dictionary. Translate the word to " ++ targetLanguage ++ lit "." ++ [newline] ++
    lit "STRICT rules: Only output in the exact format below. No explanations, no examples, no extra text." ++ [newline] ++
    lit "Use fixed-width alignment: pad the part-of-speech tag to exactly 6 characters wide." ++ [newline] ++
    [newline] ++
    lit "Format:" ++ [newline] ++
    lit "[" ++ [0x00CB; 0x00D8; 0x00E7; 0x00CA; 0x00C4; 0x00DF] ++ lit "  ] " ++ [0x00C2; 0x00EA; 0x00B4; 0x2030; 0x03C0; 0x00E2] ++ lit "1; " ++ [0x00C2; 0x00EA; 0x00B4; 0x2030; 0x03C0; 0x00E2] ++ lit "2" ++ [newline] ++
    [newline] ++
    lit "Example output for " ++ [dquote] ++ lit "run" ++ [dquote] ++ lit ":" ++ [newline] ++
    lit "[v.   ] " ++ [0x00CB; 0x2211; 0x00EB] ++ lit "; " ++ [0x00CB; 0x00F8; 0x00EA; 0x00CB; 0x00B0; 0x00E5] ++ lit "; " ++ [0x00C1; 0x00AA; 0x00E8; 0x00CB; 0x00EA; 0x2022] ++ [newline] ++
    lit "[n.   ] " ++ [0x00C2; 0x2022; 0x00EE; 0x00CB; 0x2211; 0x00EB] ++ lit "; " ++ [0x00CB; 0x00F8; 0x00EA; 0x00CB; 0x03A9; 0x00A8]
  else if negb singleWord && hasScreenshot then
    lit "You are a professional translator. Translate the following text to " ++ targetLanguage ++ lit "." ++ [newline] ++
    lit "Use the page screenshot as context to improve accuracy for domain-specific terms." ++ [newline] ++
    [newline] ++
    lit "Output format example:" ++ [newline] ++
    [0x00CB; 0x00F8; 0x00F4; 0x00CA; 0x00F2; 0x00D8; 0x00C1; 0x00F8; 0x00AA; 0x00CB; 0x00D8; 0x00EB; 0x00C1; 0x00AA; 0x00EC; 0x00CA; 0x00FB; 0x00FA] ++ [newline] ++
    [newline] ++
    [0xF8FF; 0x00FC; 0x00EC; 0x00E5] ++ lit " " ++ [dquote] ++ lit "term" ++ [dquote] ++ lit " " ++ [0x00C2; 0x00FA; 0x00AE; 0x00CA; 0x2260; 0x00A7; 0x2030; 0x220F; 0x00E4; 0x2030; 0x220F; 0x00E3; 0x00CA; 0x00F1; 0x00E1; 0x2030; 0x220F; 0x2260; 0x00CB; 0x00D8; 0x00EB; 0x2030; 0x220F; 0x222B; dquote; 0x00CA; 0x00FA; 0x00D8; 0x00CB; 0x00D8; 0x2260; dquote]
  else
    lit "You are a professional translator. Translate the following text to " ++ targetLanguage ++ lit "." ++ [newline] ++
    lit "Only output the translation result, nothing else.".

(** *** Bedrock Converse API *)

Definition isWordChar (c : unit16) : bool :=
  ((97 <=? c) && (c <=? 122)) || ((65 <=? c) && (c <=? 90))
  || ((48 <=? c) && (c <=? 57)) || (c =? 95).

(** The characters the pattern [.] does not match. *)
Definition isLineTerminator (c : unit16) : bool :=
  (c =? 10) || (c =? 13) || (c =? 0x2028) || (c =? 0x2029).

Fixpoint stripPrefix (p s : jsstring) : option jsstring :=
  match p with
  | [] => Some s
  | x :: p' =>
      match s with
      | y :: s' => if x =? y then stripPrefix p' s' else None
      | [] => None
      end
  end.

(** The longest run of word characters at the start of [s], and the rest. *)
Fixpoint spanWord (s : jsstring) : jsstring * jsstring :=
  match s with
  | [] => ([], [])
  | c :: r =>
      if isWordChar c then
        let (w, rest) := spanWord r in (c :: w, rest)
      else ([], s)
  end.

(** [s.match(/^data:(image\/\w+);base64,(.+)$/)]: the two capture groups
    when the whole of [s] matches.  After the run of word characters the
    pattern wants a semicolon, which is no word character, so the only
    candidate for the first group is the longest run; the pattern has no
    [s] flag, so [.] stops at a line terminator, and no [m] flag, so [$]
    is the end of [s]. *)
Definition matchDataUrl (s : jsstring) : option (jsstring * jsstring) :=
  match stripPrefix (lit "data:image/") s with
  | None => None
  | Some r1 =>
      let (w, r2) := spanWord r1 in
      if negb (nonEmpty w) then None
      else
        match stripPrefix (lit ";base64,") r2 with
        | None => None
        | Some d =>
            if nonEmpty d && forallb (fun c => negb (isLineTerminator c)) d
            then Some (lit "image/" ++ w, d)
            else None
        end
  end.

Definition textPart (userText : jsstring) : JsValue :=
  VObj [(lit "text", VStr userText)].

(** [buildBedrockBody(systemPrompt, userText, pageScreenshot)] *)
Definition buildBedrockBody (systemPrompt userText : jsstring)
  (pageScreenshot : option jsstring) : JsValue :=
  let userContent := [textPart userText] in
  let userContent :=
    match pageScreenshot with
    | Some shot =>
        if nonEmpty shot then
          match matchDataUrl shot with
          | Some (group1, group2) =>
              let format :=
                match nth_error (split slash group1) 1 with
                | Some f => VStr f
                | None => VUndefined
                end in
              let base64Data := group2 in
              userContent ++
              [VObj [(lit "image",
                      VObj [(lit "format", format);
                            (lit "source", VObj [(lit "bytes", VStr base64Data)])])]]
          | None => userContent
          end
        else userContent
    | None => userContent
    end in
  VObj [(lit "system", VArr [VObj [(lit "text", VStr systemPrompt)]]);
        (lit "messages",
         VArr [VObj [(lit "role", VStr (lit "user"));
                     (lit "content", VArr userContent)]]);
        (lit "inferenceConfig",
         VObj [(lit "maxTokens", VNum (intNumber 4096));
               (lit "temperature", VNum (mkNumber 1 (-1)))])].

(** [await Zotero.HTTP.request(...)]: the request is appended to the log
    and the network answers it. *)
Definition httpRequest (r : HttpRequest) : Async HttpResult :=
  fun log => (Returns (network log r), log ++ [r]).

(** [String(v)] *)
Definition toJsString (v : JsValue) : Outcome jsstring :=
  match v with
  | VStr s => Returns s
  | _ => toStringOther host v
  end.

(** [e.message || String(e)] for an exception object [e]. *)
Definition messageOf (e : JsError) : jsstring :=
  if nonEmpty (err_message e) then err_message e else errorToString e.

(** [...] + [JSON.stringify(response)] *)
Definition stringifyForConcat (v : JsValue) : jsstring :=
  match v with
  | VUndefined => lit "undefined"
  | _ => JSON_stringify host v
  end.

(** [typeof xhr.response === "string" ? JSON.parse(xhr.response) : xhr.response] *)
Definition parseResponse (xhr : Xhr) : Outcome JsValue :=
  match xhr_response xhr with
  | VStr s => JSON_parse host s
  | v => Returns v
  end.

(** [content.filter((part) => part.text)]; reading [text] of a null or
    undefined part throws. *)
Fixpoint filterTextParts (parts : list JsValue) : Outcome (list JsValue) :=
  match parts with
  | [] => Returns []
  | part :: rest =>
      match part with
      | VNull | VUndefined => Throws (engineError host PropertyOfNullish)
      | _ =>
          match filterTextParts rest with
          | Throws e => Throws e
          | Returns kept =>
              if truthy (optField part (lit "text"))
              then Returns (part :: kept) else Returns kept
          end
      end
  end.

(** [texts.join(sep)] for elements that are neither null nor undefined. *)
Fixpoint joinValues (sep : jsstring) (texts : list JsValue) : Outcome jsstring :=
  match texts with
  | [] => Returns []
  | [t] => toJsString t
  | t :: rest =>
      match toJsString t with
      | Throws e => Throws e
      | Returns s =>
          match joinValues sep rest with
          | Throws e => Throws e
          | Returns r => Returns (s ++ sep ++ r)
          end
      end
  end.

(** [content.filter(...).map((part) => part.text).join("\n")] *)
Definition extractBedrockText (content : JsValue) : Outcome JsValue :=
  match content with
  | VArr parts =>
      match filterTextParts parts with
      | Throws e => Throws e
      | Returns kept =>
          match joinValues [newline] (map (fun part => optField part (lit "text")) kept) with
          | Throws e => Throws e
          | Returns s => Returns (VStr s)
          end
      end
  | _ => Throws (engineError host FilterNotCallable)
  end.

Local Open Scope async_scope.

(** [callBedrock(modelId, requestBody)] *)
Definition callBedrock (modelId : jsstring) (requestBody : JsValue) : Async JsValue :=
  cfg <- lift getConfig ;;
  let apiKey := apiKey cfg in
  let region := region cfg in
  encoded <- lift (encodeURIComponent host modelId) ;;
  let url := lit "https://bedrock-runtime." ++ region
             ++ lit ".amazonaws.com/model/" ++ encoded ++ lit "/converse" in
  let body := JSON_stringify host requestBody in
  res <- httpRequest
           (mkRequest (lit "POST") url
              [(lit "Content-Type", lit "application/json");
               (lit "Authorization", lit "Bearer " ++ apiKey)]
              body (lit "text")) ;;
  match res with
  | Rejected e =>
      match exn_xmlhttp e with
      | Some (status, text0) =>
          let responseText := if nonEmpty text0 then text0 else empty in
          throw (newError (lit "Bedrock API error (" ++ ofN status ++ lit "): "
                           ++ substring 0 500 responseText))
      | None =>
          throw (newError (lit "HTTP request failed: " ++ messageOf (exn_error e)))
      end
  | Resolved xhr =>
      if negb (xhr_status xhr =? 200) then
        let errText := jsOr (jsOr (VStr (xhr_responseText xhr)) (xhr_response xhr))
                            (VStr empty) in
        shown <- lift (toJsString errText) ;;
        throw (newError (lit "Bedrock API error (" ++ ofN (xhr_status xhr) ++ lit "): "
                         ++ substring 0 500 shown))
      else
        response <- lift (parseResponse xhr) ;;
        let content :=
          optField (optField (optField response (lit "output")) (lit "message"))
                   (lit "content") in
        if truthy content then lift (extractBedrockText content)
        else throw (newError (lit "Unexpected Bedrock response: "
                              ++ stringifyForConcat response))
  end.

(** *** OpenAI-compatible API *)

(** [buildOpenAIBody(systemPrompt, userText, pageScreenshot, modelId)] *)
Definition buildOpenAIBody (systemPrompt userText : jsstring)
  (pageScreenshot : option jsstring) (modelId : jsstring) : JsValue :=
  let userContent := [VObj [(lit "type", VStr (lit "text")); (lit "text", VStr userText)]] in
  let userContent :=
    match pageScreenshot with
    | Some shot =>
        if nonEmpty shot then
          userContent ++
          [VObj [(lit "type", VStr (lit "image_url"));
                 (lit "image_url", VObj [(lit "url", VStr shot)])]]
        else userContent
    | None => userContent
    end in
  VObj [(lit "model", VStr modelId);
        (lit "messages",
         VArr [VObj [(lit "role", VStr (lit "system")); (lit "content", VStr systemPrompt)];
               VObj [(lit "role", VStr (lit "user")); (lit "content", VArr userContent)]]);
        (lit "max_tokens", VNum (intNumber 4096));
        (lit "temperature", VNum (mkNumber 1 (-1)))].

(** The endpoint normalization at the head of [callOpenAI]: trailing
    slashes are removed and [/chat/completions] is appended unless the
    result already ends with it. *)
Definition normalizeEndpoint (openaiEndpoint : jsstring) : jsstring :=
  let url := stripTrailingSlashes openaiEndpoint in
  if negb (endsWith url (lit "/chat/completions"))
  then url ++ lit "/chat/completions"
  else url.

(** [callOpenAI(modelId, requestBody)] *)
Definition callOpenAI (modelId : jsstring) (requestBody : JsValue) : Async JsValue :=
  cfg <- lift getConfig ;;
  let apiKey := apiKey cfg in
  let openaiEndpoint := openaiEndpoint cfg in
  let url := normalizeEndpoint openaiEndpoint in
  let body := JSON_stringify host requestBody in
  res <- httpRequest
           (mkRequest (lit "POST") url
              [(lit "Content-Type", lit "application/json");
               (lit "Authorization", lit "Bearer " ++ apiKey)]
              body (lit "text")) ;;
  match res with
  | Rejected e =>
      match exn_xmlhttp e with
      | Some (status, text0) =>
          let responseText := if nonEmpty text0 then text0 else empty in
          throw (newError (lit "OpenAI API error (" ++ ofN status ++ lit "): "
                           ++ substring 0 500 responseText))
      | None =>
          throw (newError (lit "HTTP request failed: " ++ messageOf (exn_error e)))
      end
  | Resolved xhr =>
      if negb (xhr_status xhr =? 200) then
        let errText := jsOr (jsOr (VStr (xhr_responseText xhr)) (xhr_response xhr))
                            (VStr empty) in
        shown <- lift (toJsString errText) ;;
        throw (newError (lit "OpenAI API error (" ++ ofN (xhr_status xhr) ++ lit "): "
                         ++ substring 0 500 shown))
      else
        response <- lift (parseResponse xhr) ;;
        let content :=
          optField (optField (optIndex0 (optField response (lit "choices")))
                             (lit "message"))
                   (lit "content") in
        if truthy content then ret content
        else throw (newError (lit "Unexpected OpenAI response: "
                              ++ stringifyForConcat response))
  end.

(** *** Unified translation *)

(** [callModel(systemPrompt, userText, pageScreenshot)] *)
Definition callModel (systemPrompt userText : jsstring)
  (pageScreenshot : option jsstring) : Async JsValue :=
  cfg <- lift getConfig ;;
  if JsStr.eqb (provider cfg) (lit "openai") then
    let requestBody := buildOpenAIBody systemPrompt userText pageScreenshot (modelId cfg) in
    callOpenAI (modelId cfg) requestBody
  else
    let requestBody := buildBedrockBody systemPrompt userText pageScreenshot in
    callBedrock (modelId cfg) requestBody.

(** [result.trim()] on what [callModel] resolved with. *)
Definition trimResult (result : JsValue) : Outcome jsstring :=
  match result with
  | VStr s => Returns (trim s)
  | _ => Throws (engineError host TrimNotCallable)
  end.

(** [translateText(input)] *)
Definition translateText (input : TranslationInput) : Async jsstring :=
  let targetLanguage := getStringPref (lit "targetLanguage") (lit "zh-CN") in
  let singleWord := isSingleWord (text input) in
  let hasScreenshot := present (pageScreenshot input) in
  cfg <- lift getConfig ;;
  let systemPrompt := buildSystemPrompt targetLanguage singleWord hasScreenshot in
  let userText := (if singleWord then lit "Word: " else lit "Text: ") ++ text input in
  tryCatch
    (result <- callModel systemPrompt userText
                 (if hasScreenshot then pageScreenshot input else None) ;;
     lift (trimResult result))
    (fun e =>
       let errMsg := messageOf e in
       if hasScreenshot
          && (includes errMsg (lit "image") || includes errMsg (lit "Image"))
       then
         let fallbackPrompt := buildSystemPrompt targetLanguage singleWord false in
         result <- callModel fallbackPrompt userText None ;;
         lift (trimResult result)
       else throw e).

(** [testConnection()] *)
Definition testConnection : Async JsValue :=
  cfg <- lift getConfig ;;
  let systemPrompt := lit "You are a helpful assistant. Reply in one short sentence." in
  let userText := lit "Say hello and confirm you are working." in
  result <- callModel systemPrompt userText None ;;
  ret result.

End Service.

Arguments getStringPref prefs key defaultValue : assert.
Arguments getConfig prefs : assert.

(* ================================================================= *)
(** ** A host for the examples

    The theorems below hold for every [Host].  The examples need one to
    run on: this module implements the built-ins for the values that occur
    in the examples (numbers are printed in plain decimal notation, and
    [JSON.parse] recognises the documents of a given list, each by the text
    [JSON.stringify] prints for it). *)

Module Fixture.

Definition backslash : unit16 := 92.

Definition hexDigit (n : N) : unit16 :=
  nth (N.to_nat n) (lit "0123456789ABCDEF") 48.

Definition hexDigitLower (n : N) : unit16 :=
  nth (N.to_nat n) (lit "0123456789abcdef") 48.

Definition isHighSurrogate (c : unit16) : bool := (0xD800 <=? c) && (c <=? 0xDBFF).
Definition isLowSurrogate (c : unit16) : bool := (0xDC00 <=? c) && (c <=? 0xDFFF).

(** [\uXXXX] *)
Definition unicodeEscape (c : unit16) : jsstring :=
  [backslash; 117; hexDigitLower (c / 4096); hexDigitLower ((c / 256) mod 16);
   hexDigitLower ((c / 16) mod 16); hexDigitLower (c mod 16)].

(** The characters of a string between the quotes of its JSON text. *)
Fixpoint escapeJson (s : jsstring) : jsstring :=
  match s with
  | [] => []
  | c :: r =>
      if c =? dquote then backslash :: dquote :: escapeJson r
      else if c =? backslash then backslash :: backslash :: escapeJson r
      else if c =? 8 then backslash :: 98 :: escapeJson r
      else if c =? 9 then backslash :: 116 :: escapeJson r
      else if c =? 10 then backslash :: 110 :: escapeJson r
      else if c =? 12 then backslash :: 102 :: escapeJson r
      else if c =? 13 then backslash :: 114 :: escapeJson r
      else if c <? 32 then unicodeEscape c ++ escapeJson r
      else if isHighSurrogate c then
        match r with
        | d :: r' =>
            if isLowSurrogate d then c :: d :: escapeJson r'
            else unicodeEscape c ++ escapeJson r
        | [] => unicodeEscape c
        end
      else if isLowSurrogate c then unicodeEscape c ++ escapeJson r
      else c :: escapeJson r
  end.

Definition quoteJson (s : jsstring) : jsstring :=
  [dquote] ++ escapeJson s ++ [dquote].

(** A number in plain decimal notation. *)
Definition showNumber (n : JsNumber) : jsstring :=
  let m := mantissa n in
  let digits := ofN (Z.abs_N m) in
  let sign := if (m <? 0)%Z then lit "-" else [] in
  if (m =? 0)%Z then lit "0"
  else if (0 <=? exp10 n)%Z then
    sign ++ digits ++ repeat 48 (Z.to_nat (exp10 n))
  else
    let k := Z.to_nat (- exp10 n) in
    let len := List.length digits in
    if (len <=? k)%nat
    then sign ++ lit "0." ++ repeat 48 (k - len) ++ digits
    else sign ++ firstn (len - k) digits ++ lit "." ++ skipn (len - k) digits.

(** [JSON.stringify(v)]: a property whose value is [undefined] is left
    out, an [undefined] array element is printed as [null]. *)
Fixpoint stringify (v : JsValue) : jsstring :=
  match v with
  | VUndefined => lit "null"
  | VNull => lit "null"
  | VBool true => lit "true"
  | VBool false => lit "false"
  | VNum n => showNumber n
  | VStr s => quoteJson s
  | VArr items =>
      lit "[" ++
      (fix elements (l : list JsValue) : jsstring :=
         match l with
         | [] => []
         | [x] => stringify x
         | x :: r => stringify x ++ lit "," ++ elements r
         end) items
      ++ lit "]"
  | VObj fields =>
      lit "{" ++
      (fix members (first : bool) (l : list (jsstring * JsValue)) : jsstring :=
         match l with
         | [] => []
         | (_, VUndefined) :: r => members first r
         | (k, x) :: r =>
             (if first then [] else lit ",")
             ++ quoteJson k ++ lit ":" ++ stringify x ++ members false r
         end) true fields
      ++ lit "}"
  end.

(** [JSON.parse] restricted to the texts of the documents [known]. *)
Fixpoint parseKnown (known : list JsValue) (s : jsstring) : Outcome JsValue :=
  match known with
  | [] => Throws (mkError (lit "SyntaxError")
                    (lit "JSON.parse: unexpected character at line 1 column 1 of the JSON data"))
  | v :: rest => if JsStr.eqb (stringify v) s then Returns v else parseKnown rest s
  end.

Definition isUnreserved (c : unit16) : bool :=
  isWordChar c || (c =? 45) || (c =? 46) || (c =? 33) || (c =? 126)
  || (c =? 42) || (c =? 39) || (c =? 40) || (c =? 41).

Definition percent (byte : N) : jsstring :=
  [37; hexDigit (byte / 16); hexDigit (byte mod 16)].

Definition utf8 (cp : N) : list N :=
  if cp <? 0x80 then [cp]
  else if cp <? 0x800 then [0xC0 + cp / 64; 0x80 + cp mod 64]
  else if cp <? 0x10000 then
    [0xE0 + cp / 4096; 0x80 + (cp / 64) mod 64; 0x80 + cp mod 64]
  else
    [0xF0 + cp / 262144; 0x80 + (cp / 4096) mod 64;
     0x80 + (cp / 64) mod 64; 0x80 + cp mod 64].

Definition uriError : JsError :=
  mkError (lit "URIError") (lit "malformed URI sequence").

(** [encodeURIComponent(s)] *)
Fixpoint encodeComponent (s : jsstring) : Outcome jsstring :=
  match s with
  | [] => Returns []
  | c :: r =>
      if isHighSurrogate c then
        match r with
        | d :: r' =>
            if isLowSurrogate d then
              match encodeComponent r' with
              | Returns e =>
                  Returns (flat_map percent
                             (utf8 (0x10000 + (c - 0xD800) * 1024 + (d - 0xDC00))) ++ e)
              | Throws e => Throws e
              end
            else Throws uriError
        | [] => Throws uriError
        end
      else if isLowSurrogate c then Throws uriError
      else
        match encodeComponent r with
        | Returns e =>
            Returns ((if isUnreserved c then [c] else flat_map percent (utf8 c)) ++ e)
        | Throws e => Throws e
        end
  end.

(** [String(v)] for the values of the examples. *)
Definition showOther (v : JsValue) : Outcome jsstring :=
  match v with
  | VUndefined => Returns (lit "undefined")
  | VNull => Returns (lit "null")
  | VBool true => Returns (lit "true")
  | VBool false => Returns (lit "false")
  | VNum n => Returns (showNumber n)
  | VStr s => Returns s
  | VArr _ => Returns (stringify v)
  | VObj _ => Returns (lit "[object Object]")
  end.

Definition typeError (fault : EngineFault) : JsError :=
  mkError (lit "TypeError")
    match fault with
    | FilterNotCallable => lit "response.output.message.content.filter is not a function"
    | PropertyOfNullish => lit "part is null"
    | TrimNotCallable => lit "result.trim is not a function"
    end.

Definition sampleHost (known : list JsValue) : Host :=
  mkHost (parseKnown known) stringify encodeComponent showOther typeError.

(** A preference store given by the list of the preferences that are set;
    a preference that is not set reads as [undefined]. *)
Fixpoint prefsOf (set : list (jsstring * jsstring)) : PrefStore :=
  fun name =>
    match set with
    | [] => Returns VUndefined
    | (key, value) :: rest =>
        if JsStr.eqb name (PREF_PREFIX ++ lit "." ++ key) then Returns (VStr value)
        else prefsOf rest name
    end.

(** A network that answers the n-th request of a run with the n-th entry
    of a script, and refuses the connection once the script is used up. *)
Definition scripted (script : list HttpResult) : Network :=
  fun log _ =>
    nth (List.length log) script
      (Rejected (mkHttpException None
                   (mkError (lit "Error") (lit "connection refused")))).

End Fixture.

(* ================================================================= *)
(** ** Vocabulary of the statements *)

(** The string is empty or starts with a character [trim] keeps. *)
Definition headKept (s : jsstring) : Prop :=
  match s with
  | [] => True
  | c :: _ => isWhiteSpace c = false
  end.

(** The suffix every normalized endpoint ends with. *)
Definition chatCompletions : jsstring := lit "/chat/completions".

(** The data URI of an image: [data:image/<fmt>;base64,<data>]. *)
Definition dataUri (fmt data : jsstring) : jsstring :=
  lit "data:image/" ++ fmt ++ lit ";base64," ++ data.

(** What the placeholders of the data-URI pattern stand for: [<fmt>] is a
    word of one or more letters, digits or underscores (png, jpeg), and
    [<data>] is one or more characters on a single line. *)
Definition isFormatName (fmt : jsstring) : Prop :=
  fmt <> [] /\ forallb isWordChar fmt = true.

Definition isPayload (data : jsstring) : Prop :=
  data <> [] /\ forallb (fun c => negb (isLineTerminator c)) data = true.

Definition matchesDataUriPattern (s : jsstring) : Prop :=
  exists fmt data, s = dataUri fmt data /\ isFormatName fmt /\ isPayload data.

(** The Bedrock body for a system prompt and a list of content parts. *)
Definition bedrockBodyWith (systemPrompt : jsstring) (content : list JsValue) : JsValue :=
  VObj [(lit "system", VArr [VObj [(lit "text", VStr systemPrompt)]]);
        (lit "messages",
         VArr [VObj [(lit "role", VStr (lit "user"));
                     (lit "content", VArr content)]]);
        (lit "inferenceConfig",
         VObj [(lit "maxTokens", VNum (intNumber 4096));
               (lit "temperature", VNum (mkNumber 1 (-1)))])].

(** The image part of a Bedrock message. *)
Definition bedrockImagePart (format bytes : jsstring) : JsValue :=
  VObj [(lit "image",
         VObj [(lit "format", VStr format);
               (lit "source", VObj [(lit "bytes", VStr bytes)])])].

(** The OpenAI body for a model, a system prompt and a list of parts. *)
Definition openAIBodyWith (modelId systemPrompt : jsstring) (content : list JsValue) : JsValue :=
  VObj [(lit "model", VStr modelId);
        (lit "messages",
         VArr [VObj [(lit "role", VStr (lit "system")); (lit "content", VStr systemPrompt)];
               VObj [(lit "role", VStr (lit "user")); (lit "content", VArr content)]]);
        (lit "max_tokens", VNum (intNumber 4096));
        (lit "temperature", VNum (mkNumber 1 (-1)))].

Definition openAITextPart (userText : jsstring) : JsValue :=
  VObj [(lit "type", VStr (lit "text")); (lit "text", VStr userText)].

Definition openAIImagePart (url : jsstring) : JsValue :=
  VObj [(lit "type", VStr (lit "image_url"));
        (lit "image_url", VObj [(lit "url", VStr url)])].

(** The provider [getConfig] reads the credentials of. *)
Definition activeProvider (prefs : PrefStore) : jsstring :=
  if JsStr.eqb (getStringPref prefs (lit "provider") (lit "bedrock")) (lit "openai")
  then lit "openai" else lit "bedrock".

(** The API key resolved for the active provider. *)
Definition resolvedApiKey (prefs : PrefStore) : jsstring :=
  getStringPref prefs (activeProvider prefs ++ lit ".apiKey") empty.

(** The configuration error of a provider. *)
Definition configError (providerName : jsstring) : JsError :=
  newError (providerName
            ++ lit " API key not configured. Please set it in Vibe Translate preferences.").

Definition isConfigError (e : JsError) : Prop :=
  e = configError (lit "OpenAI") \/ e = configError (lit "Bedrock").

(** A preference that holds no usable string: reading it throws, or it has
    a value that is not a string, or a string that is blank. *)
Definition prefUnset (prefs : PrefStore) (key : jsstring) : Prop :=
  match prefs (PREF_PREFIX ++ lit "." ++ key) with
  | Returns (VStr v) => trim v = []
  | _ => True
  end.

(** The stored provider preference is a string that reads openai once the
    blanks around it are removed. *)
Definition providerPrefSelectsOpenAI (prefs : PrefStore) : Prop :=
  exists v, prefs (PREF_PREFIX ++ lit ".provider") = Returns (VStr v)
            /\ trim v = lit "openai".

(** The configuration [getConfig] resolves on its Bedrock branch. *)
Definition bedrockConfig (prefs : PrefStore) : Outcome Config :=
  let key := getStringPref prefs (lit "bedrock.apiKey") empty in
  if nonEmpty key then
    Returns (mkConfig (getStringPref prefs (lit "provider") (lit "bedrock"))
               key
               (getStringPref prefs (lit "bedrock.modelId")
                  (lit "us.anthropic.claude-sonnet-4-5-20250929-v1:0"))
               (getStringPref prefs (lit "bedrock.region") (lit "us-east-1"))
               empty)
  else Throws (configError (lit "Bedrock")).

(** *** Preference stores and replies of the examples *)

Module Examples.
Import Fixture.

(** Bedrock with a key, every other preference left to its default. *)
Definition bedrockPrefs : PrefStore :=
  prefsOf [(lit "bedrock.apiKey", lit "bedrock-key")].

(** OpenAI with a key. *)
Definition openaiPrefs : PrefStore :=
  prefsOf [(lit "provider", lit "openai"); (lit "openai.apiKey", lit "sk-test")].

(** The provider preference stored with a blank after the name. *)
Definition blankPaddedPrefs : PrefStore :=
  prefsOf [(lit "provider", lit "openai "); (lit "openai.apiKey", lit "sk-test")].

(** A chat-completions reply whose text has blanks around it. *)
Definition paddedReply : JsValue :=
  VObj [(lit "choices",
         VArr [VObj [(lit "message",
                      VObj [(lit "role", VStr (lit "assistant"));
                            (lit "content", VStr (lit " Hello! I am working. "))])]])].

(** A Converse reply with one text part. *)
Definition converseReply : JsValue :=
  VObj [(lit "output",
         VObj [(lit "message",
                VObj [(lit "role", VStr (lit "assistant"));
                      (lit "content", VArr [VObj [(lit "text", VStr (lit "[v.   ] run"))]])])])].

Definition host : Host := sampleHost [paddedReply; converseReply].

(** The response with status [status] whose body is the text of [doc]. *)
Definition respond (status : N) (doc : JsValue) : HttpResult :=
  Resolved (mkXhr status (stringify doc) (VStr (stringify doc))).

(** The exception of a request the server answered with [status] and the
    plain text [body]. *)
Definition refuse (status : N) (body : jsstring) : HttpResult :=
  Rejected (mkHttpException (Some (status, body))
              (mkError (lit "Error")
                 (lit "HTTP POST failed with status " ++ ofN status))).

Definition pngShot : jsstring := lit "data:image/png;base64,AAAA".

(** The word run, selected on a page with a screenshot. *)
Definition runWithShot : TranslationInput :=
  mkInput (lit "run") (Some pngShot) None.

(** A server that refuses the first request with a message about images
    and answers the second. *)
Definition refusesImages : Network :=
  scripted [refuse 400 (lit "This model does not support image input.");
            respond 200 converseReply].

(** The same server, its message in capitals. *)
Definition refusesImagesInCapitals : Network :=
  scripted [refuse 400 (lit "IMAGE INPUT IS NOT SUPPORTED BY THIS MODEL.");
            respond 200 converseReply].

End Examples.

(** *** The HTTP callers *)

(** A 2xx status. *)
Definition isSuccessStatus (status : N) : bool :=
  (200 <=? status) && (status <? 300).

(** The error a caller raises for a failed HTTP exchange: the name of the
    provider, the status code and the first 500 characters of the body. *)
Definition httpError (providerName : jsstring) (status : N) (body : jsstring) : JsError :=
  newError (providerName ++ lit " API error (" ++ ofN status ++ lit "): "
            ++ firstn 500 body).

Definition requestHeaders (cfg : Config) : list (jsstring * jsstring) :=
  [(lit "Content-Type", lit "application/json");
   (lit "Authorization", lit "Bearer " ++ apiKey cfg)].

(** The request [callOpenAI] sends for a body. *)
Definition openAIRequest (host : Host) (cfg : Config) (requestBody : JsValue) : HttpRequest :=
  mkRequest (lit "POST") (normalizeEndpoint (openaiEndpoint cfg))
    (requestHeaders cfg) (JSON_stringify host requestBody) (lit "text").

(** The request [callBedrock] sends for a body, given the encoded model id. *)
Definition bedrockRequest (host : Host) (cfg : Config) (encodedModelId : jsstring)
  (requestBody : JsValue) : HttpRequest :=
  mkRequest (lit "POST")
    (lit "https://bedrock-runtime." ++ region cfg ++ lit ".amazonaws.com/model/"
     ++ encodedModelId ++ lit "/converse")
    (requestHeaders cfg) (JSON_stringify host requestBody) (lit "text").

(** [xhr.responseText || xhr.response || empty] *)
Definition errorText (xhr : Xhr) : JsValue :=
  jsOr (jsOr (VStr (xhr_responseText xhr)) (xhr_response xhr)) (VStr empty).

(** Reading the reply of a request that resolved with status 200. *)
Definition readOpenAIReply (host : Host) (xhr : Xhr) : Outcome JsValue :=
  match parseResponse host xhr with
  | Throws e => Throws e
  | Returns response =>
      let content :=
        optField (optField (optIndex0 (optField response (lit "choices")))
                           (lit "message")) (lit "content") in
      if truthy content then Returns content
      else Throws (newError (lit "Unexpected OpenAI response: "
                             ++ stringifyForConcat host response))
  end.

Definition readBedrockReply (host : Host) (xhr : Xhr) : Outcome JsValue :=
  match parseResponse host xhr with
  | Throws e => Throws e
  | Returns response =>
      let content :=
        optField (optField (optField response (lit "output")) (lit "message"))
                 (lit "content") in
      if truthy content then extractBedrockText host content
      else Throws (newError (lit "Unexpected Bedrock response: "
                             ++ stringifyForConcat host response))
  end.

(** What a caller makes of the answer of the network; [read] reads the
    reply of a request that resolved with status 200. *)
Definition callerOutcome (host : Host) (providerName : jsstring)
  (read : Xhr -> Outcome JsValue) (answer : HttpResult) : Outcome JsValue :=
  match answer with
  | Rejected e =>
      match exn_xmlhttp e with
      | Some (status, body) => Throws (httpError providerName status body)
      | None => Throws (newError (lit "HTTP request failed: " ++ messageOf (exn_error e)))
      end
  | Resolved xhr =>
      if xhr_status xhr =? 200 then read xhr
      else
        match toJsString host (errorText xhr) with
        | Returns shown => Throws (httpError providerName (xhr_status xhr) shown)
        | Throws e => Throws e
        end
  end.

(** *** The fallback of [translateText] *)

(** The user text, the target language and the two prompts of a call. *)
Definition userTextOf (input : TranslationInput) : jsstring :=
  (if isSingleWord (text input) then lit "Word: " else lit "Text: ") ++ text input.

Definition targetLanguageOf (prefs : PrefStore) : jsstring :=
  getStringPref prefs (lit "targetLanguage") (lit "zh-CN").

Definition firstPrompt (prefs : PrefStore) (input : TranslationInput) : jsstring :=
  buildSystemPrompt (targetLanguageOf prefs) (isSingleWord (text input))
    (present (pageScreenshot input)).

Definition fallbackPrompt (prefs : PrefStore) (input : TranslationInput) : jsstring :=
  buildSystemPrompt (targetLanguageOf prefs) (isSingleWord (text input)) false.

(** The image attached to the first call of the model. *)
Definition attachedImage (input : TranslationInput) : option jsstring :=
  if present (pageScreenshot input) then pageScreenshot input else None.

(** The first call of the model, and the call without the image. *)
Definition firstAttempt (host : Host) (prefs : PrefStore) (network : Network)
  (input : TranslationInput) : Async JsValue :=
  callModel host prefs network (firstPrompt prefs input) (userTextOf input)
    (attachedImage input).

Definition retryAttempt (host : Host) (prefs : PrefStore) (network : Network)
  (input : TranslationInput) : Async JsValue :=
  callModel host prefs network (fallbackPrompt prefs input) (userTextOf input) None.

(** The test the code applies to the message of an error. *)
Definition mentionsImage (e : JsError) : bool :=
  includes (messageOf e) (lit "image") || includes (messageOf e) (lit "Image").

(** The test the specification describes. *)
Definition mentionsImageIgnoringCase (e : JsError) : bool :=
  includesIgnoringCase (messageOf e) (lit "image").

(** The outcome of a call of the model, its text trimmed. *)
Definition trimmed (host : Host) (run : Outcome JsValue * list HttpRequest)
  : Outcome jsstring * list HttpRequest :=
  match run with
  | (Returns result, log) => (trimResult host result, log)
  | (Throws e, log) => (Throws e, log)
  end.

(** The log [log'] is [log] with at most one request more. *)
Definition atMostOneRequest (log log' : list HttpRequest) : Prop :=
  log' = log \/ exists r, log' = log ++ [r].

(** The body [callModel] builds under a configuration. *)
Definition requestBodyFor (cfg : Config) (systemPrompt userText : jsstring)
  (image : option jsstring) : JsValue :=
  if JsStr.eqb (provider cfg) (lit "openai")
  then buildOpenAIBody systemPrompt userText image (modelId cfg)
  else buildBedrockBody systemPrompt userText image.

(** The log [log'] is [log], or [log] and one request that carries the
    serialized [body]. *)
Definition sendsOnly (host : Host) (body : JsValue) (log log' : list HttpRequest) : Prop :=
  log' = log
  \/ exists r, log' = log ++ [r] /\ req_body r = JSON_stringify host body.

(** What [translateText] does once its first attempt has thrown [e] with
    the log at [log1]. *)
Definition afterFailure (host : Host) (prefs : PrefStore) (network : Network)
  (input : TranslationInput) (e : JsError) (log1 : list HttpRequest)
  : Outcome jsstring * list HttpRequest :=
  if present (pageScreenshot input) && mentionsImage e
  then trimmed host (retryAttempt host prefs network input log1)
  else (Throws e, log1).

(* ================================================================= *)
(** ** More of the repository

    The second revision of the prompt builder, the logging functions the
    service calls ([debug.ts]), the part of [translate.ts] that prepares
    the input of [translateText], and the CSV escaping of the wordbook
    export. *)

(** *** The prompt builder, second revision *)

Module Revision2.

(** [buildSystemPrompt(targetLanguage, singleWord, hasScreenshot)] *)
Definition buildSystemPrompt (targetLanguage : jsstring)
  (singleWord hasScreenshot : bool) : jsstring :=
  let contextNote :=
    if hasScreenshot
    then [newline] ++ lit "A screenshot of the current PDF page is provided for context. Use it to improve translation accuracy for domain-specific terms."
    else empty in
  if singleWord then
    lit "You are an expert academic dictionary and translator. Translate the word to " ++ targetLanguage ++ lit "." ++ contextNote ++ [newline] ++
    [newline] ++
    lit "Output in this EXACT format (use " ++ [0x3010; 0x3011] ++ lit "markers):" ++ [newline] ++
    [newline] ++
    [0x3010; 0x5355; 0x8BCD; 0x3011] ++ lit " {the word}  " ++ [0x3010; 0x97F3; 0x6807; 0x3011] ++ lit " " ++ [0x82F1] ++ lit " [British IPA] | " ++ [0x7F8E] ++ lit " [American IPA]" ++ [newline] ++
    [0x3010; 0x91CA; 0x4E49; 0x3011] ++ [newline] ++
    lit "1. {part of speech}. {meaning in " ++ targetLanguage ++ lit "}" ++ [newline] ++
    lit "2. {part of speech}. {meaning in " ++ targetLanguage ++ lit "}" ++ [newline] ++
    [0x3010; 0x4F8B; 0x53E5; 0x3011] ++ [newline] ++
    [0x2022] ++ lit " EN: {example sentence in English}" ++ [newline] ++
    [0x2022] ++ lit " " ++ targetLanguage ++ lit ": {example sentence translated}" ++ [newline] ++
    (if hasScreenshot then [0xD83D; 0xDCCC] ++ lit " {contextual meaning in this paper}" else empty) ++ [newline] ++
    [newline] ++
    lit "Example for " ++ [dquote] ++ lit "elaborate" ++ [dquote] ++ lit ":" ++ [newline] ++
    [0x3010; 0x5355; 0x8BCD; 0x3011] ++ lit " elaborate  " ++ [0x3010; 0x97F3; 0x6807; 0x3011] ++ lit " " ++ [0x82F1] ++ lit " [" ++ [0x026A; 0x02C8] ++ lit "l" ++ [0x00E6] ++ lit "b" ++ [0x0259] ++ lit "r" ++ [0x0259] ++ lit "t] | " ++ [0x7F8E] ++ lit " [" ++ [0x026A; 0x02C8] ++ lit "l" ++ [0x00E6] ++ lit "b" ++ [0x0259] ++ lit "r" ++ [0x0259] ++ lit "t]" ++ [newline] ++
    [0x3010; 0x91CA; 0x4E49; 0x3011] ++ [newline] ++
    lit "1. adj. " ++ [0x590D; 0x6742; 0x7684; 0xFF1B; 0x8BE6; 0x5C3D; 0x7684; 0xFF1B; 0x7CBE; 0x5FC3; 0x5236; 0x4F5C; 0x7684] ++ [newline] ++
    lit "2. v. " ++ [0x8BE6; 0x7EC6; 0x8BF4; 0x660E; 0xFF1B; 0x9610; 0x8FF0] ++ [newline] ++
    [0x3010; 0x4F8B; 0x53E5; 0x3011] ++ [newline] ++
    [0x2022] ++ lit " EN: He refused to elaborate on why he had resigned." ++ [newline] ++
    [0x2022] ++ lit " " ++ [0x7B80; 0x4F53; 0x4E2D; 0x6587] ++ lit ": " ++ [0x4ED6; 0x62D2; 0x7EDD; 0x8BE6; 0x7EC6; 0x8BF4; 0x660E; 0x8F9E; 0x804C; 0x7684; 0x539F; 0x56E0; 0x3002]
  else
    lit "You are an expert academic translator. Translate the text to " ++ targetLanguage ++ lit "." ++ contextNote ++ [newline] ++
    [newline] ++
    lit "Output in this EXACT format (use " ++ [0x3010; 0x3011] ++ lit "markers):" ++ [newline] ++
    [newline] ++
    [0x3010; 0x7CBE; 0x51C6; 0x7FFB; 0x8BD1; 0x3011] ++ lit " {accurate translation into " ++ targetLanguage ++ lit "}" ++ [newline] ++
    [0x3010; 0x6838; 0x5FC3; 0x53E5; 0x5F0F; 0x3011] ++ [newline] ++
    lit "1. {grammar pattern}: {explanation in " ++ targetLanguage ++ lit "}" ++ [newline] ++
    lit "2. {grammar pattern}: {explanation in " ++ targetLanguage ++ lit "}" ++ [newline] ++
    [0x3010; 0x91CD; 0x70B9; 0x8BCD; 0x6C47; 0x3011] ++ [newline] ++
    lit "1. {word} ({part of speech}): {meaning in " ++ targetLanguage ++ lit "}" ++ [newline] ++
    lit "2. {word} ({part of speech}): {meaning in " ++ targetLanguage ++ lit "}" ++ [newline] ++
    [newline] ++
    lit "Example for " ++ [dquote] ++ lit "It is not how much we have, but how much we enjoy, that makes happiness." ++ [dquote] ++ lit ":" ++ [newline] ++
    [0x3010; 0x7CBE; 0x51C6; 0x7FFB; 0x8BD1; 0x3011] ++ lit " " ++ [0x51B3; 0x5B9A; 0x5E78; 0x798F; 0x7684; 0x4E0D; 0x662F; 0x6211; 0x4EEC; 0x62E5; 0x6709; 0x591A; 0x5C11; 0xFF0C; 0x800C; 0x662F; 0x6211; 0x4EEC; 0x4EAB; 0x53D7; 0x591A; 0x5C11; 0x3002] ++ [newline] ++
    [0x3010; 0x6838; 0x5FC3; 0x53E5; 0x5F0F; 0x3011] ++ [newline] ++
    lit "1. It is... that...: " ++ [0x5F3A; 0x8C03; 0x53E5; 0x578B; 0x3002; 0x7528; 0x4E8E; 0x5F3A; 0x8C03; 0x53E5; 0x5B50; 0x7684; 0x67D0; 0x4E00; 0x90E8; 0x5206; 0xFF08; 0x6B64; 0x5904; 0x5F3A; 0x8C03; 0x662F; 0x7531; 0x4EC0; 0x4E48; 0x9020; 0x5C31; 0x4E86; 0x5E78; 0x798F; 0xFF09; 0x3002] ++ [newline] ++
    lit "2. not..., but...: " ++ [0x8FDE; 0x8BCD; 0x7ED3; 0x6784; 0x3002; 0x8868; 0x793A; dquote; 0x4E0D; 0x662F; 0x2026; 0x2026; 0x800C; 0x662F; 0x2026; 0x2026; dquote; 0xFF0C; 0x8FDE; 0x63A5; 0x4E24; 0x4E2A; 0x5E76; 0x5217; 0x6210; 0x5206; 0xFF0C; 0x8868; 0x793A; 0x903B; 0x8F91; 0x4E0A; 0x7684; 0x53D6; 0x820D; 0x3002] ++ [newline] ++
    [0x3010; 0x91CD; 0x70B9; 0x8BCD; 0x6C47; 0x3011] ++ [newline] ++
    lit "1. enjoy (v.): " ++ [0x4EAB; 0x53D7; 0xFF1B; 0x6B23; 0x8D4F] ++ [newline] ++
    lit "2. happiness (n.): " ++ [0x5E78; 0x798F; 0xFF1B; 0x5FEB; 0x4E50].

End Revision2.

(** *** Logging *)

Module Debug.

Definition LOG_PREFIX : jsstring := lit "[Vibe Zotero Translate]".

(** [Zotero.log(line)]: it records the line, or throws. *)
Definition ZoteroLog := jsstring -> Outcome unit.

(** A logging function runs over the lines recorded so far. *)
Definition Logging (A : Type) := list jsstring -> Outcome A * list jsstring.

(** [isDebugEnabled()]: the preference must be the boolean [true]. *)
Definition isDebugEnabled (prefs : PrefStore) : bool :=
  match prefs (PREF_PREFIX ++ lit ".debug") with
  | Returns (VBool true) => true
  | _ => false
  end.

(** [log(message)] *)
Definition log (zoteroLog : ZoteroLog) (message : jsstring) : Logging unit :=
  fun recorded =>
    let line := LOG_PREFIX ++ lit " " ++ message in
    match zoteroLog line with
    | Returns _ => (Returns tt, recorded ++ [line])
    | Throws _ => (Returns tt, recorded)   (* Zotero not available *)
    end.

(** [debug(message)] *)
Definition debug (prefs : PrefStore) (zoteroLog : ZoteroLog) (message : jsstring)
  : Logging unit :=
  fun recorded =>
    if isDebugEnabled prefs then log zoteroLog (lit "[DEBUG] " ++ message) recorded
    else (Returns tt, recorded).

(** [error(message, err)] for an exception object [err], with its [stack]
    when it has one, or for no [err] at all. *)
Definition error (zoteroLog : ZoteroLog) (message : jsstring)
  (err : option (JsError * option jsstring)) : Logging unit :=
  let errStr :=
    match err with
    | Some (e, _) =>
        lit " | " ++ (if nonEmpty (err_message e) then err_message e else errorToString e)
    | None => empty
    end in
  let stack :=
    match err with
    | Some (_, Some trace) => if nonEmpty trace then [newline] ++ trace else empty
    | _ => empty
    end in
  log zoteroLog (lit "[ERROR] " ++ message ++ errStr ++ stack).

End Debug.

(** *** Preparing a translation *)

Module Translate.

(** [TranslationContext] *)
Record TranslationContext := mkContext {
  text : jsstring;
  pageScreenshot : option jsstring;
  pageNumber : option Z
}.

(** [getPopupPosition()] *)
Definition getPopupPosition (prefs : PrefStore) : jsstring :=
  match prefs (PREF_PREFIX ++ lit ".popupPosition") with
  | Returns (VStr val) =>
      if existsb (JsStr.eqb val)
           [lit "popup"; lit "bottom-left"; lit "bottom-right";
            lit "top-left"; lit "top-right"]
      then val else lit "popup"
  | _ => lit "popup"
  end.

(** [prepareContext(selectedText, reader)]; [captured] is what
    [capturePageScreenshot(reader)] returns, which is asked for only when
    the context is enabled. *)
Definition prepareContext (prefs : PrefStore)
  (captured : option jsstring * option Z) (selectedText : jsstring)
  : TranslationContext :=
  let enableContext :=
    match prefs (PREF_PREFIX ++ lit ".enableContext") with
    | Returns (VBool false) => false
    | _ => true
    end in
  let (screenshot, pageNumber) :=
    if enableContext then captured else (None, None) in
  mkContext selectedText screenshot pageNumber.

(** The [input] that [performTranslation] builds from its context and
    passes to [translateText]. *)
Definition translationInput (context : TranslationContext) : TranslationInput :=
  mkInput (text context) (pageScreenshot context) (pageNumber context).

(** The flag [performTranslation] saves the word with:
    the text holds no space and no newline. *)
Definition savedAsSingleWord (context : TranslationContext) : bool :=
  negb (includes (text context) (lit " "))
  && negb (includes (text context) [newline]).

End Translate.

(** *** The CSV export of the wordbook *)

Module Wordbook.

(** [s.replace] of every double quote, globally, by two of them. *)
Fixpoint doubleQuotes (s : jsstring) : jsstring :=
  match s with
  | [] => []
  | c :: r =>
      if c =? dquote then dquote :: dquote :: doubleQuotes r
      else c :: doubleQuotes r
  end.

(** [csvEscape(s)] *)
Definition csvEscape (s : jsstring) : jsstring :=
  if includes s (lit ",") || includes s [dquote] || includes s [newline]
  then [dquote] ++ doubleQuotes s ++ [dquote]
  else s.

End Wordbook.

(** *** Vocabulary of the further properties *)

(** A string of blanks only. *)
Definition isBlank (s : jsstring) : Prop := forallb isWhiteSpace s = true.

(** The configuration [getConfig] resolves on its OpenAI branch. *)
Definition openaiConfig (prefs : PrefStore) : Outcome Config :=
  let key := getStringPref prefs (lit "openai.apiKey") empty in
  if nonEmpty key then
    Returns (mkConfig (getStringPref prefs (lit "provider") (lit "bedrock"))
               key
               (getStringPref prefs (lit "openai.modelId") (lit "gpt-4o"))
               empty
               (getStringPref prefs (lit "openai.endpoint")
                  (lit "https://api.openai.com/v1/chat/completions")))
  else Throws (configError (lit "OpenAI")).

(** A request as the service sends it: a POST for a text response, with
    the JSON content type and the API key of the active provider as bearer
    token, to the normalized OpenAI endpoint or to the Converse URL of the
    Bedrock model in the configured region. *)
Definition sentToActiveProvider (host : Host) (prefs : PrefStore) (r : HttpRequest) : Prop :=
  req_method r = lit "POST"
  /\ req_responseType r = lit "text"
  /\ req_headers r
     = [(lit "Content-Type", lit "application/json");
        (lit "Authorization", lit "Bearer " ++ resolvedApiKey prefs)]
  /\ if JsStr.eqb (getStringPref prefs (lit "provider") (lit "bedrock")) (lit "openai")
     then req_url r
          = normalizeEndpoint
              (getStringPref prefs (lit "openai.endpoint")
                 (lit "https://api.openai.com/v1/chat/completions"))
     else exists encoded,
            encodeURIComponent host
              (getStringPref prefs (lit "bedrock.modelId")
                 (lit "us.anthropic.claude-sonnet-4-5-20250929-v1:0"))
            = Returns encoded
            /\ req_url r
               = lit "https://bedrock-runtime."
                 ++ getStringPref prefs (lit "bedrock.region") (lit "us-east-1")
                 ++ lit ".amazonaws.com/model/" ++ encoded ++ lit "/converse".

(** The two texts of [testConnection]. *)
Definition diagnosticPrompt : jsstring :=
  lit "You are a helpful assistant. Reply in one short sentence.".

Definition diagnosticText : jsstring :=
  lit "Say hello and confirm you are working.".

(** The text of a content block of a Converse reply, empty when the block
    has none. *)
Definition textOfPart (part : JsValue) : jsstring :=
  match optField part (lit "text") with
  | VStr s => s
  | _ => []
  end.

(** A content block: an object whose [text], when it has one, is a
    string. *)
Definition isContentBlock (part : JsValue) : Prop :=
  (exists fields, part = VObj fields)
  /\ (optField part (lit "text") = VUndefined
      \/ exists s, optField part (lit "text") = VStr s).

(** Strings joined with a newline between them. *)
Fixpoint joinLines (lines : list jsstring) : jsstring :=
  match lines with
  | [] => []
  | [s] => s
  | s :: rest => s ++ [newline] ++ joinLines rest
  end.

(** The content a caller looks for in a parsed reply. *)
Definition openAIContent (response : JsValue) : JsValue :=
  optField (optField (optIndex0 (optField response (lit "choices"))) (lit "message"))
           (lit "content").

Definition bedrockContent (response : JsValue) : JsValue :=
  optField (optField (optField response (lit "output")) (lit "message"))
           (lit "content").

(** *** More examples *)

Module MoreExamples.
Import Fixture.

(** A chat-completions reply whose content is a list of parts, as some
    OpenAI-compatible servers send it. *)
Definition partsReply : JsValue :=
  VObj [(lit "choices",
         VArr [VObj [(lit "message",
                      VObj [(lit "role", VStr (lit "assistant"));
                            (lit "content",
                             VArr [VObj [(lit "type", VStr (lit "text"));
                                         (lit "text", VStr (lit "hi"))]])])]])].

Definition host : Host := sampleHost [partsReply].

(** Bedrock with a model id that is a lone surrogate. *)
Definition brokenModelPrefs : PrefStore :=
  prefsOf [(lit "bedrock.apiKey", lit "bedrock-key");
           (lit "bedrock.modelId", [0xD800])].

(** An SVG screenshot. *)
Definition svgInput : TranslationInput :=
  mkInput (lit "run") (Some (lit "data:image/svg+xml;base64,AAAA")) None.

(** A [Zotero.log] that records every line, and one that always throws. *)
Definition working : Debug.ZoteroLog := fun _ => Returns tt.

Definition unavailable : Debug.ZoteroLog :=
  fun _ => Throws (mkError (lit "ReferenceError") (lit "Zotero is not defined")).

(** Bedrock with a key, and the page context switched off. *)
Definition contextOffPrefs : PrefStore :=
  fun name =>
    if JsStr.eqb name (PREF_PREFIX ++ lit ".enableContext") then Returns (VBool false)
    else prefsOf [(lit "bedrock.apiKey", lit "bedrock-key")] name.

End MoreExamples.

(** *** Reading a CSV field back *)

(** The content of a quoted field: each pair of quotes is one quote. *)
Fixpoint undoubleQuotes (s : jsstring) : jsstring :=
  match s with
  | [] => []
  | c :: r =>
      if c =? dquote then
        match r with
        | d :: r' => if d =? dquote then dquote :: undoubleQuotes r' else c :: undoubleQuotes r
        | [] => [c]
        end
      else c :: undoubleQuotes r
  end.

(** The value of a CSV field: a field that starts with a quote is quoted,
    and its value is what stands between the outer quotes, undoubled; any
    other field is its own value. *)
Definition csvFieldValue (field : jsstring) : jsstring :=
  match field with
  | c :: r => if c =? dquote then undoubleQuotes (removelast r) else field
  | [] => []
  end.

(** The five positions of the popup. *)
Definition popupPositions : list jsstring :=
  [lit "popup"; lit "bottom-left"; lit "bottom-right"; lit "top-left"; lit "top-right"].

(* ================================================================= *)
(** * Properties *)

(** ** Facts about the string primitives *)

Module JsStrFacts.

Lemma eqb_eq (a b : jsstring) : JsStr.eqb a b = true <-> a = b.
Proof.
  revert b; induction a as [|x a IH]; intros [|y b]; simpl;
    try (split; [discriminate | discriminate]); try tauto.
  rewrite andb_true_iff, N.eqb_eq, IH.
  split; [intros [-> ->]; reflexivity | intros H; inversion H; auto].
Qed.

Lemma eqb_neq (a b : jsstring) : JsStr.eqb a b = false <-> a <> b.
Proof.
  rewrite <- eqb_eq. destruct (JsStr.eqb a b); split; congruence.
Qed.

Lemma startsWith_app (p r : jsstring) : startsWith (p ++ r) p = true.
Proof.
  induction p as [|x p IH]; simpl; [reflexivity|].
  now rewrite N.eqb_refl, IH.
Qed.

Lemma startsWith_inv (s p : jsstring) :
  startsWith s p = true -> exists r, s = p ++ r.
Proof.
  revert s; induction p as [|x p IH]; intros s H; simpl in *.
  - now exists s.
  - destruct s as [|y s]; [discriminate|].
    apply andb_true_iff in H as [Hxy Hs].
    apply N.eqb_eq in Hxy; subst y.
    destruct (IH _ Hs) as [r ->]. now exists r.
Qed.

Lemma endsWith_app (r p : jsstring) : endsWith (r ++ p) p = true.
Proof.
  unfold endsWith. rewrite rev_app_distr. apply startsWith_app.
Qed.

Lemma endsWith_inv (s p : jsstring) :
  endsWith s p = true -> exists r, s = r ++ p.
Proof.
  unfold endsWith. intros H.
  destruct (startsWith_inv _ _ H) as [r Hr].
  exists (rev r).
  rewrite <- (rev_involutive s), Hr, rev_app_distr, rev_involutive.
  reflexivity.
Qed.

(** Searching for a one-unit string is a membership test. *)
Lemma includes_single (s : jsstring) (c : unit16) :
  includes s [c] = true <-> In c s.
Proof.
  induction s as [|x s IH]; simpl.
  - split; [discriminate | tauto].
  - rewrite orb_true_iff, IH.
    destruct (N.eqb_spec c x) as [->|Hne]; simpl.
    + split; auto.
    + split.
      * intros [H|H]; [discriminate | auto].
      * intros [H|H]; [congruence | auto].
Qed.

Lemma substring_prefix (n : nat) (s : jsstring) :
  substring 0 n s = firstn n s.
Proof.
  unfold substring. rewrite Nat.min_0_l, Nat.max_0_l, Nat.sub_0_r. reflexivity.
Qed.

(** *** Trimming *)

Lemma trimStart_fixed (s : jsstring) : headKept s -> trimStart s = s.
Proof.
  destruct s as [|c r]; simpl; [reflexivity|]. now intros ->.
Qed.

Lemma trimStart_head (s : jsstring) : headKept (trimStart s).
Proof.
  induction s as [|c r IH]; simpl; [exact I|].
  destruct (isWhiteSpace c) eqn:E; [exact IH | exact E].
Qed.

Lemma trimStart_suffix (s : jsstring) : exists w, s = w ++ trimStart s.
Proof.
  induction s as [|c r [w IH]]; simpl.
  - now exists [].
  - destruct (isWhiteSpace c).
    + exists (c :: w). simpl. now rewrite <- IH.
    + now exists [].
Qed.

Lemma trimEnd_prefix (s : jsstring) : exists w, s = trimEnd s ++ w.
Proof.
  unfold trimEnd. destruct (trimStart_suffix (rev s)) as [w Hw].
  exists (rev w).
  rewrite <- rev_app_distr, <- Hw, rev_involutive. reflexivity.
Qed.

Lemma trimEnd_head (s : jsstring) : headKept s -> headKept (trimEnd s).
Proof.
  intros H. destruct (trimEnd_prefix s) as [w Hw].
  destruct (trimEnd s) as [|c t]; [exact I|].
  rewrite Hw in H. exact H.
Qed.

Lemma trimEnd_idempotent (s : jsstring) : trimEnd (trimEnd s) = trimEnd s.
Proof.
  unfold trimEnd. rewrite rev_involutive.
  rewrite (trimStart_fixed _ (trimStart_head _)). reflexivity.
Qed.

Lemma trim_idempotent (s : jsstring) : trim (trim s) = trim s.
Proof.
  unfold trim.
  rewrite (trimStart_fixed (trimEnd (trimStart s))).
  - apply trimEnd_idempotent.
  - apply trimEnd_head, trimStart_head.
Qed.

(** *** Trailing slashes *)

Lemma stripTrailingSlashes_fixed (r : jsstring) (c : unit16) :
  c <> slash -> stripTrailingSlashes (r ++ [c]) = r ++ [c].
Proof.
  intros Hc. unfold stripTrailingSlashes.
  rewrite rev_app_distr. simpl.
  destruct (N.eqb_spec c slash) as [E|_]; [contradiction|].
  simpl. rewrite rev_involutive. reflexivity.
Qed.

End JsStrFacts.

Import JsStrFacts.

(* ----------------------------------------------------------------- *)
(** ** Word-vs-passage classification *)

(** C7. [isSingleWord] answers true exactly when the trimmed text holds no
    space, no tab and no newline; it is true of hello and of solo between
    blanks, false of hello world and of two lines. *)
Theorem isSingleWord_iff_no_separator :
  (forall text : jsstring,
      isSingleWord text = true <->
      ~ In space (trim text) /\ ~ In tab (trim text) /\ ~ In newline (trim text))
  /\ isSingleWord (lit "hello") = true
  /\ isSingleWord (lit "hello world") = false
  /\ isSingleWord (lit "line1" ++ [newline] ++ lit "line2") = false
  /\ isSingleWord (lit "  solo  ") = true.
Proof.
  split; [|repeat split; reflexivity].
  intros text. unfold isSingleWord.
  rewrite !andb_true_iff, !negb_true_iff.
  change (lit " ") with [space].
  rewrite <- !not_true_iff_false, !includes_single.
  tauto.
Qed.

(* ----------------------------------------------------------------- *)
(** ** Endpoint normalization *)

Lemma normalizeEndpoint_suffix (e : jsstring) :
  exists r, normalizeEndpoint e = r ++ chatCompletions.
Proof.
  unfold normalizeEndpoint.
  destruct (endsWith (stripTrailingSlashes e) (lit "/chat/completions")) eqn:E; simpl.
  - apply endsWith_inv in E. exact E.
  - now exists (stripTrailingSlashes e).
Qed.

Lemma normalizeEndpoint_fixed (r : jsstring) :
  normalizeEndpoint (r ++ chatCompletions) = r ++ chatCompletions.
Proof.
  unfold normalizeEndpoint.
  assert (Hs : stripTrailingSlashes (r ++ chatCompletions) = r ++ chatCompletions).
  { change chatCompletions with (lit "/chat/completion" ++ [115]).
    rewrite app_assoc. apply stripTrailingSlashes_fixed. discriminate. }
  rewrite Hs. fold chatCompletions. rewrite endsWith_app. reflexivity.
Qed.

(** C4. Normalizing an endpoint twice gives what normalizing it once
    gives, and the bare base URL, the base URL with a trailing slash and
    the full chat-completions URL all normalize to the full URL. *)
Theorem normalizeEndpoint_idempotent :
  (forall e : jsstring,
      normalizeEndpoint (normalizeEndpoint e) = normalizeEndpoint e)
  /\ normalizeEndpoint (lit "https://api.openai.com/v1")
     = lit "https://api.openai.com/v1/chat/completions"
  /\ normalizeEndpoint (lit "https://api.openai.com/v1/")
     = lit "https://api.openai.com/v1/chat/completions"
  /\ normalizeEndpoint (lit "https://api.openai.com/v1/chat/completions")
     = lit "https://api.openai.com/v1/chat/completions".
Proof.
  split; [|repeat split; reflexivity].
  intros e. destruct (normalizeEndpoint_suffix e) as [r ->].
  apply normalizeEndpoint_fixed.
Qed.

(* ----------------------------------------------------------------- *)
(** ** The data-URI pattern of the Bedrock builder *)

Lemma stripPrefix_app (p r : jsstring) : stripPrefix p (p ++ r) = Some r.
Proof.
  induction p as [|x p IH]; simpl; [reflexivity|].
  now rewrite N.eqb_refl.
Qed.

Lemma stripPrefix_inv (p s r : jsstring) :
  stripPrefix p s = Some r -> s = p ++ r.
Proof.
  revert s; induction p as [|x p IH]; intros s H; simpl in *.
  - congruence.
  - destruct s as [|y s]; [discriminate|].
    destruct (N.eqb_spec x y) as [->|_]; [|discriminate].
    now rewrite (IH _ H).
Qed.

Lemma spanWord_run (w r : jsstring) :
  forallb isWordChar w = true ->
  match r with [] => True | c :: _ => isWordChar c = false end ->
  spanWord (w ++ r) = (w, r).
Proof.
  intros Hw Hr. induction w as [|c w IH]; simpl in *.
  - destruct r as [|c r]; [reflexivity|]. simpl. now rewrite Hr.
  - apply andb_true_iff in Hw as [Hc Hw].
    rewrite Hc, (IH Hw). reflexivity.
Qed.

Lemma spanWord_inv (s w r : jsstring) :
  spanWord s = (w, r) -> s = w ++ r /\ forallb isWordChar w = true.
Proof.
  revert w r; induction s as [|c s IH]; intros w r H; simpl in H.
  - inversion H; subst. now split.
  - destruct (isWordChar c) eqn:Ec.
    + destruct (spanWord s) as [w' r'] eqn:Es.
      inversion H; subst.
      destruct (IH _ _ eq_refl) as [-> Hw].
      simpl. now rewrite Ec, Hw.
    + inversion H; subst. now split.
Qed.

Lemma split_word (w : jsstring) :
  forallb isWordChar w = true -> split slash w = [w].
Proof.
  induction w as [|c w IH]; simpl; [reflexivity|].
  intros H. apply andb_true_iff in H as [Hc Hw].
  rewrite (IH Hw).
  destruct (N.eqb_spec c slash) as [->|_]; [discriminate|reflexivity].
Qed.

Lemma nonEmpty_true (s : jsstring) : nonEmpty s = true <-> s <> [].
Proof. destruct s; simpl; split; congruence. Qed.

(** The matcher accepts every string of the pattern, with the groups the
    pattern captures... *)
Lemma matchDataUrl_sound (fmt data : jsstring) :
  isFormatName fmt -> isPayload data ->
  matchDataUrl (dataUri fmt data) = Some (lit "image/" ++ fmt, data).
Proof.
  intros [Hf Hw] [Hd Hl].
  unfold matchDataUrl, dataUri.
  rewrite stripPrefix_app.
  rewrite (spanWord_run fmt (lit ";base64," ++ data) Hw) by reflexivity.
  apply nonEmpty_true in Hf. rewrite Hf. simpl negb. cbv iota.
  rewrite stripPrefix_app.
  apply nonEmpty_true in Hd. rewrite Hd, Hl. reflexivity.
Qed.

(** ... and nothing else. *)
Lemma matchDataUrl_complete (s group1 group2 : jsstring) :
  matchDataUrl s = Some (group1, group2) ->
  exists fmt,
    s = dataUri fmt group2 /\ isFormatName fmt /\ isPayload group2
    /\ group1 = lit "image/" ++ fmt.
Proof.
  unfold matchDataUrl. intros H.
  destruct (stripPrefix (lit "data:image/") s) as [r1|] eqn:E1; [|discriminate].
  destruct (spanWord r1) as [w r2] eqn:E2.
  destruct (nonEmpty w) eqn:Ew; cbn [negb] in H; [|discriminate].
  destruct (stripPrefix (lit ";base64,") r2) as [d|] eqn:E3; [|discriminate].
  destruct (nonEmpty d) eqn:Ed; cbn [andb] in H; [|discriminate].
  destruct (forallb (fun c => negb (isLineTerminator c)) d) eqn:El; [|discriminate].
  inversion H; subst group1 group2.
  apply stripPrefix_inv in E1, E3.
  apply spanWord_inv in E2 as [E2 Hw].
  exists w. unfold dataUri, isFormatName, isPayload.
  rewrite <- !nonEmpty_true. subst. auto.
Qed.

Lemma matchDataUrl_none (s : jsstring) :
  ~ matchesDataUriPattern s -> matchDataUrl s = None.
Proof.
  intros H. destruct (matchDataUrl s) as [[g1 g2]|] eqn:E; [|reflexivity].
  exfalso. apply H.
  destruct (matchDataUrl_complete _ _ _ E) as (fmt & Hs & Hf & Hd & _).
  now exists fmt, g2.
Qed.

(** C5. For an image given as a data URI, the Bedrock builder sends the
    format name and the bare base64 payload, the prefix of the URI gone,
    and the OpenAI builder sends the URI itself, unchanged. *)
Theorem builders_image_part
  (systemPrompt userText modelId fmt data : jsstring)
  (Hfmt : isFormatName fmt) (Hdata : isPayload data) :
  buildBedrockBody systemPrompt userText (Some (dataUri fmt data))
  = bedrockBodyWith systemPrompt [textPart userText; bedrockImagePart fmt data]
  /\ buildOpenAIBody systemPrompt userText (Some (dataUri fmt data)) modelId
     = openAIBodyWith modelId systemPrompt
         [openAITextPart userText; openAIImagePart (dataUri fmt data)].
Proof.
  split.
  - unfold buildBedrockBody.
    replace (nonEmpty (dataUri fmt data)) with true by reflexivity.
    rewrite (matchDataUrl_sound _ _ Hfmt Hdata).
    assert (Hsplit : split slash (lit "image/" ++ fmt) = [lit "image"; fmt]).
    { destruct Hfmt as [_ Hw]. simpl. rewrite (split_word _ Hw). reflexivity. }
    rewrite Hsplit. reflexivity.
  - reflexivity.
Qed.

(** The instance of C5 the specification names: a PNG with payload AAAA. *)
Lemma builders_image_part_png :
  buildBedrockBody (lit "S") (lit "U") (Some (lit "data:image/png;base64,AAAA"))
  = bedrockBodyWith (lit "S") [textPart (lit "U"); bedrockImagePart (lit "png") (lit "AAAA")]
  /\ buildOpenAIBody (lit "S") (lit "U") (Some (lit "data:image/png;base64,AAAA")) (lit "gpt-4o")
     = openAIBodyWith (lit "gpt-4o") (lit "S")
         [openAITextPart (lit "U"); openAIImagePart (lit "data:image/png;base64,AAAA")].
Proof.
  apply (builders_image_part (lit "S") (lit "U") (lit "gpt-4o") (lit "png") (lit "AAAA")).
  - split; [discriminate | reflexivity].
  - split; [discriminate | reflexivity].
Defined.

(** C10. An image string that is not of the data-URI pattern makes the
    Bedrock builder return, without an error, the body whose user message
    holds the text part alone. *)
Theorem buildBedrockBody_drops_other_images
  (systemPrompt userText image : jsstring)
  (Hno : ~ matchesDataUriPattern image) :
  buildBedrockBody systemPrompt userText (Some image)
  = bedrockBodyWith systemPrompt [textPart userText].
Proof.
  unfold buildBedrockBody.
  rewrite (matchDataUrl_none _ Hno).
  destruct (nonEmpty image); reflexivity.
Qed.

(** An SVG data URI is outside the pattern (its format name holds a plus
    sign), and so is an image URL that is no data URI at all. *)
Lemma buildBedrockBody_drops_svg :
  buildBedrockBody (lit "S") (lit "U") (Some (lit "data:image/svg+xml;base64,AAAA"))
  = bedrockBodyWith (lit "S") [textPart (lit "U")].
Proof.
  apply (buildBedrockBody_drops_other_images (lit "S") (lit "U")
           (lit "data:image/svg+xml;base64,AAAA")).
  intros (fmt & data & Hs & Hf & Hd).
  pose proof (matchDataUrl_sound fmt data Hf Hd) as Hm.
  rewrite <- Hs in Hm. vm_compute in Hm. discriminate.
Defined.

(* ----------------------------------------------------------------- *)
(** ** The configuration resolver *)

Lemma getStringPref_unset (prefs : PrefStore) (key d : jsstring) :
  prefUnset prefs key -> getStringPref prefs key d = d.
Proof.
  unfold prefUnset, getStringPref.
  destruct (prefs (PREF_PREFIX ++ lit "." ++ key)) as [[| | | |v| |]|]; try reflexivity.
  intros ->. simpl. now rewrite andb_false_r.
Qed.

Lemma getStringPref_string (prefs : PrefStore) (key d v : jsstring) :
  prefs (PREF_PREFIX ++ lit "." ++ key) = Returns (VStr v) ->
  trim v <> [] ->
  getStringPref prefs key d = trim v.
Proof.
  intros Hp Hv. unfold getStringPref. rewrite Hp.
  destruct v as [|c v]; [now elim Hv|].
  destruct (trim (c :: v)); [now elim Hv | reflexivity].
Qed.

Lemma getConfig_provider (prefs : PrefStore) (cfg : Config) :
  getConfig prefs = Returns cfg ->
  provider cfg = getStringPref prefs (lit "provider") (lit "bedrock").
Proof.
  unfold getConfig.
  destruct (JsStr.eqb _ _);
    match goal with |- context [negb (nonEmpty ?k)] => destruct (nonEmpty k) end;
    simpl; intros H; inversion H; reflexivity.
Qed.

(** The two messages of [getConfig] do not look like an image error. *)
Lemma configError_not_about_images (e : JsError) :
  isConfigError e ->
  includes (err_message e) (lit "image") || includes (err_message e) (lit "Image") = false.
Proof. intros [-> | ->]; vm_compute; reflexivity. Qed.

Lemma resolvedApiKey_cases (prefs : PrefStore) :
  resolvedApiKey prefs
  = if JsStr.eqb (getStringPref prefs (lit "provider") (lit "bedrock")) (lit "openai")
    then getStringPref prefs (lit "openai.apiKey") empty
    else getStringPref prefs (lit "bedrock.apiKey") empty.
Proof.
  unfold resolvedApiKey, activeProvider. destruct (JsStr.eqb _ _); reflexivity.
Qed.

Lemma getConfig_throws (prefs : PrefStore) (e : JsError) :
  getConfig prefs = Throws e -> isConfigError e /\ resolvedApiKey prefs = [].
Proof.
  rewrite resolvedApiKey_cases. unfold getConfig, isConfigError.
  destruct (JsStr.eqb _ _);
    match goal with |- context [negb (nonEmpty ?k)] => destruct k end;
    cbn [nonEmpty negb]; intros H; inversion H; split; auto.
Qed.

Lemma getConfig_returns (prefs : PrefStore) (cfg : Config) :
  getConfig prefs = Returns cfg ->
  apiKey cfg = resolvedApiKey prefs /\ resolvedApiKey prefs <> [].
Proof.
  rewrite resolvedApiKey_cases. unfold getConfig.
  destruct (JsStr.eqb _ _);
    match goal with |- context [negb (nonEmpty ?k)] => destruct k end;
    cbn [nonEmpty negb]; intros H; inversion H; cbn [apiKey];
    split; auto; discriminate.
Qed.

(** C3. [getConfig] raises its configuration error exactly when the API
    key resolved for the active provider is empty, and then [translateText]
    and [testConnection] reject with that error and send no request.
    Otherwise it returns the configuration of the active provider, each
    field read with its default: provider bedrock, Bedrock region
    us-east-1, OpenAI model gpt-4o, OpenAI endpoint the public
    chat-completions URL. *)
Theorem getConfig_requires_apiKey (prefs : PrefStore) :
  ((exists e, getConfig prefs = Throws e) <-> resolvedApiKey prefs = [])
  /\ (forall e, getConfig prefs = Throws e ->
        isConfigError e
        /\ forall host network input log,
             translateText host prefs network input log = (Throws e, log)
             /\ testConnection host prefs network log = (Throws e, log))
  /\ (resolvedApiKey prefs <> [] ->
        exists cfg,
          getConfig prefs = Returns cfg
          /\ apiKey cfg = resolvedApiKey prefs
          /\ provider cfg = getStringPref prefs (lit "provider") (lit "bedrock")
          /\ (provider cfg = lit "openai" ->
                modelId cfg = getStringPref prefs (lit "openai.modelId") (lit "gpt-4o")
                /\ openaiEndpoint cfg
                   = getStringPref prefs (lit "openai.endpoint")
                       (lit "https://api.openai.com/v1/chat/completions"))
          /\ (provider cfg <> lit "openai" ->
                modelId cfg
                = getStringPref prefs (lit "bedrock.modelId")
                    (lit "us.anthropic.claude-sonnet-4-5-20250929-v1:0")
                /\ region cfg = getStringPref prefs (lit "bedrock.region") (lit "us-east-1")))
  /\ (forall key d, prefUnset prefs key -> getStringPref prefs key d = d).
Proof.
  assert (Hcases : (exists e, getConfig prefs = Throws e)
                   \/ exists cfg, getConfig prefs = Returns cfg).
  { destruct (getConfig prefs) as [cfg|e]; [right; now exists cfg | left; now exists e]. }
  repeat split.
  - intros [e He]. now apply getConfig_throws in He.
  - intros Hk. destruct Hcases as [H|[cfg H]]; [exact H|].
    apply getConfig_returns in H as [_ H]. contradiction.
  - now apply getConfig_throws in H.
  - unfold translateText, bind, lift. now rewrite H.
  - unfold testConnection, bind, lift. now rewrite H.
  - intros Hk. destruct Hcases as [[e H]|[cfg H]].
    + apply getConfig_throws in H as [_ H]. contradiction.
    + exists cfg. split; [exact H|].
      split; [now apply getConfig_returns in H|].
      split; [now apply getConfig_provider|].
      pose proof (getConfig_provider _ _ H) as Hp.
      revert H. unfold getConfig.
      destruct (JsStr.eqb _ _) eqn:Eo;
        match goal with |- context [negb (nonEmpty ?k)] => destruct (nonEmpty k) end;
        simpl; intros H; inversion H; subst cfg; simpl in *; split; intros Hc;
        try (split; reflexivity);
        [apply eqb_eq in Eo | apply eqb_neq in Eo]; congruence.
  - intros key d. apply getStringPref_unset.
Qed.

(** C3 on a store with no preference set: the Bedrock key is missing, and
    both operations reject with the Bedrock configuration error, the log
    of requests still empty. *)
Lemma getConfig_requires_apiKey_unset :
  translateText (Fixture.sampleHost []) (Fixture.prefsOf []) (Fixture.scripted [])
    (mkInput (lit "run") None None) []
  = (Throws (configError (lit "Bedrock")), [])
  /\ testConnection (Fixture.sampleHost []) (Fixture.prefsOf []) (Fixture.scripted []) []
     = (Throws (configError (lit "Bedrock")), []).
Proof.
  destruct (getConfig_requires_apiKey (Fixture.prefsOf [])) as (_ & H & _ & _).
  apply (H (configError (lit "Bedrock"))). reflexivity.
Defined.

(* ----------------------------------------------------------------- *)
(** ** Provider selection *)

Lemma provider_not_openai (prefs : PrefStore) :
  ~ providerPrefSelectsOpenAI prefs ->
  JsStr.eqb (getStringPref prefs (lit "provider") (lit "bedrock")) (lit "openai") = false.
Proof.
  intros Hno. apply eqb_neq. intros Heq. apply Hno.
  unfold getStringPref in Heq. unfold providerPrefSelectsOpenAI.
  change (PREF_PREFIX ++ lit "." ++ lit "provider")
    with (PREF_PREFIX ++ lit ".provider") in Heq.
  destruct (prefs (PREF_PREFIX ++ lit ".provider")) as [[| | | |v| |]|];
    try discriminate Heq.
  exists v. split; [reflexivity|].
  destruct (nonEmpty v && (0 <? List.length (trim v))%nat);
    [exact Heq | discriminate Heq].
Qed.

(** C9, as the code has it.  Unless the stored provider preference is a
    string that reads openai once trimmed, [getConfig] resolves the Bedrock
    configuration (or raises the Bedrock configuration error), and
    [callModel] is the Bedrock builder followed by the Bedrock caller:
    there is no error for an unknown provider. *)
Theorem other_providers_use_bedrock (prefs : PrefStore)
  (Hother : ~ providerPrefSelectsOpenAI prefs) :
  getConfig prefs = bedrockConfig prefs
  /\ forall host network systemPrompt userText image log,
       callModel host prefs network systemPrompt userText image log
       = bind (lift (bedrockConfig prefs))
           (fun cfg =>
              callBedrock host prefs network (modelId cfg)
                (buildBedrockBody systemPrompt userText image)) log.
Proof.
  pose proof (provider_not_openai prefs Hother) as Hp.
  assert (Hcfg : getConfig prefs = bedrockConfig prefs).
  { unfold getConfig, bedrockConfig. rewrite Hp.
    destruct (nonEmpty _); reflexivity. }
  split; [exact Hcfg|].
  intros. unfold callModel, bind, lift. rewrite <- Hcfg.
  destruct (getConfig prefs) as [cfg|e] eqn:E; [|reflexivity].
  rewrite (getConfig_provider _ _ E), Hp. reflexivity.
Qed.

(** An unrecognized provider name, google, is served by Bedrock. *)
Lemma other_providers_use_bedrock_google :
  getConfig (Fixture.prefsOf [(lit "provider", lit "google");
                              (lit "bedrock.apiKey", lit "bedrock-key")])
  = Returns (mkConfig (lit "google") (lit "bedrock-key")
               (lit "us.anthropic.claude-sonnet-4-5-20250929-v1:0")
               (lit "us-east-1") empty).
Proof.
  refine (eq_trans
            (proj1 (other_providers_use_bedrock
                      (Fixture.prefsOf [(lit "provider", lit "google");
                                        (lit "bedrock.apiKey", lit "bedrock-key")]) _))
            eq_refl).
  intros (v & Hv & Ht). vm_compute in Hv. inversion Hv; subst v.
  vm_compute in Ht. discriminate.
Defined.

(** C9 as stated fails: the stored value is not the exact string openai
    (a blank follows the name), yet the OpenAI configuration is resolved
    and the request goes to the OpenAI endpoint. *)
Lemma blank_padded_provider_selects_openai :
  Examples.blankPaddedPrefs (PREF_PREFIX ++ lit ".provider") = Returns (VStr (lit "openai "))
  /\ lit "openai " <> lit "openai"
  /\ getConfig Examples.blankPaddedPrefs
     = Returns (mkConfig (lit "openai") (lit "sk-test") (lit "gpt-4o") empty
                  (lit "https://api.openai.com/v1/chat/completions"))
  /\ getConfig Examples.blankPaddedPrefs <> bedrockConfig Examples.blankPaddedPrefs
  /\ map req_url
       (snd (callModel Examples.host Examples.blankPaddedPrefs
               (Fixture.scripted [Examples.respond 200 Examples.paddedReply])
               (lit "S") (lit "U") None []))
     = [lit "https://api.openai.com/v1/chat/completions"].
Proof.
  repeat split; try (vm_compute; reflexivity); discriminate.
Qed.

(* ----------------------------------------------------------------- *)
(** ** The HTTP callers *)

Section Callers.

Variable host : Host.
Variable prefs : PrefStore.
Variable network : Network.
Variable cfg : Config.
Hypothesis Hcfg : getConfig prefs = Returns cfg.

(** [callOpenAI] sends one request and turns the answer into its outcome. *)
Lemma callOpenAI_run (modelId : jsstring) (requestBody : JsValue) (log : list HttpRequest) :
  let req := openAIRequest host cfg requestBody in
  callOpenAI host prefs network modelId requestBody log
  = (callerOutcome host (lit "OpenAI") (readOpenAIReply host) (network log req),
     log ++ [req]).
Proof.
  unfold callOpenAI, bind, lift, httpRequest, throw, ret, callerOutcome,
    readOpenAIReply, httpError, errorText, openAIRequest, requestHeaders.
  rewrite Hcfg. cbv zeta.
  destruct (network log _) as [xhr|e].
  - destruct (xhr_status xhr =? 200); cbn [negb].
    + destruct (parseResponse host xhr); [|reflexivity].
      destruct (truthy _); reflexivity.
    + destruct (toJsString host _); [|reflexivity].
      rewrite substring_prefix. reflexivity.
  - destruct (exn_xmlhttp e) as [[status text0]|]; [|reflexivity].
    rewrite substring_prefix. destruct text0; reflexivity.
Qed.

(** [callBedrock] does the same once the model id is encoded, and sends
    nothing when the encoding fails. *)
Lemma callBedrock_run (modelId : jsstring) (requestBody : JsValue) (log : list HttpRequest) :
  callBedrock host prefs network modelId requestBody log
  = match encodeURIComponent host modelId with
    | Throws e => (Throws e, log)
    | Returns encoded =>
        let req := bedrockRequest host cfg encoded requestBody in
        (callerOutcome host (lit "Bedrock") (readBedrockReply host) (network log req),
         log ++ [req])
    end.
Proof.
  unfold callBedrock, bind, lift, httpRequest, throw, ret, callerOutcome,
    readBedrockReply, httpError, errorText, bedrockRequest, requestHeaders.
  rewrite Hcfg. cbv zeta.
  destruct (encodeURIComponent host modelId) as [encoded|e]; [|reflexivity].
  destruct (network log _) as [xhr|e].
  - destruct (xhr_status xhr =? 200); cbn [negb].
    + destruct (parseResponse host xhr); [|reflexivity].
      destruct (truthy _); reflexivity.
    + destruct (toJsString host _); [|reflexivity].
      rewrite substring_prefix. reflexivity.
  - destruct (exn_xmlhttp e) as [[status text0]|]; [|reflexivity].
    rewrite substring_prefix. destruct text0; reflexivity.
Qed.

End Callers.

(** C8, as the code has it.  Both callers raise the HTTP error when the
    request resolves with a status other than 200, and whenever the
    request is rejected with an exception that carries the failed
    exchange; the message names the provider and the status code and ends
    with the first 500 characters, at most, of the response body.  A
    request that resolves with status 200 never raises it: the outcome is
    that of reading the reply. *)
Theorem callers_raise_http_error
  (host : Host) (prefs : PrefStore) (network : Network) (cfg : Config)
  (modelId : jsstring) (requestBody : JsValue) (log : list HttpRequest)
  (Hcfg : getConfig prefs = Returns cfg) :
  let openai := fst (callOpenAI host prefs network modelId requestBody log) in
  let bedrock := fst (callBedrock host prefs network modelId requestBody log) in
  let openaiAnswer := network log (openAIRequest host cfg requestBody) in
  let bedrockAnswer encoded := network log (bedrockRequest host cfg encoded requestBody) in
  (forall xhr, openaiAnswer = Resolved xhr -> xhr_status xhr = 200 ->
     openai = readOpenAIReply host xhr)
  /\ (forall xhr shown, openaiAnswer = Resolved xhr -> xhr_status xhr <> 200 ->
        toJsString host (errorText xhr) = Returns shown ->
        openai = Throws (httpError (lit "OpenAI") (xhr_status xhr) shown))
  /\ (forall e status body, openaiAnswer = Rejected e ->
        exn_xmlhttp e = Some (status, body) ->
        openai = Throws (httpError (lit "OpenAI") status body))
  /\ (forall encoded xhr,
        encodeURIComponent host modelId = Returns encoded ->
        bedrockAnswer encoded = Resolved xhr -> xhr_status xhr = 200 ->
        bedrock = readBedrockReply host xhr)
  /\ (forall encoded xhr shown,
        encodeURIComponent host modelId = Returns encoded ->
        bedrockAnswer encoded = Resolved xhr -> xhr_status xhr <> 200 ->
        toJsString host (errorText xhr) = Returns shown ->
        bedrock = Throws (httpError (lit "Bedrock") (xhr_status xhr) shown))
  /\ (forall encoded e status body,
        encodeURIComponent host modelId = Returns encoded ->
        bedrockAnswer encoded = Rejected e ->
        exn_xmlhttp e = Some (status, body) ->
        bedrock = Throws (httpError (lit "Bedrock") status body))
  /\ (forall name status body,
        err_message (httpError name status body)
        = name ++ lit " API error (" ++ ofN status ++ lit "): " ++ firstn 500 body
        /\ (List.length (firstn 500 body) <= 500)%nat).
Proof.
  cbv zeta.
  rewrite (callOpenAI_run host prefs network cfg Hcfg).
  rewrite (callBedrock_run host prefs network cfg Hcfg).
  cbv zeta. cbn [fst].
  repeat split.
  - intros xhr -> Hs. cbn. now rewrite Hs.
  - intros xhr shown -> Hs Hshown. cbn.
    apply N.eqb_neq in Hs. now rewrite Hs, Hshown.
  - intros e status body -> He. cbn. now rewrite He.
  - intros encoded xhr -> Hn Hs. cbn [fst]. rewrite Hn. cbn. now rewrite Hs.
  - intros encoded xhr shown -> Hn Hs Hshown. cbn [fst]. rewrite Hn. cbn.
    apply N.eqb_neq in Hs. now rewrite Hs, Hshown.
  - intros encoded e status body -> Hn He. cbn [fst]. rewrite Hn. cbn. now rewrite He.
  - apply firstn_le_length.
Qed.

(** C8 on a request the server refuses with status 429. *)
Lemma callers_raise_http_error_429 :
  fst (callOpenAI Examples.host Examples.openaiPrefs
         (Fixture.scripted [Examples.refuse 429 (lit "rate limited")])
         (lit "gpt-4o") (openAIBodyWith (lit "gpt-4o") (lit "S") [openAITextPart (lit "U")]) [])
  = Throws (httpError (lit "OpenAI") 429 (lit "rate limited"))
  /\ fst (callBedrock Examples.host Examples.bedrockPrefs
            (Fixture.scripted [Examples.refuse 429 (lit "rate limited")])
            (lit "m") (bedrockBodyWith (lit "S") [textPart (lit "U")]) [])
     = Throws (httpError (lit "Bedrock") 429 (lit "rate limited")).
Proof.
  split.
  - destruct (callers_raise_http_error Examples.host Examples.openaiPrefs
                (Fixture.scripted [Examples.refuse 429 (lit "rate limited")])
                (mkConfig (lit "openai") (lit "sk-test") (lit "gpt-4o") empty
                   (lit "https://api.openai.com/v1/chat/completions"))
                (lit "gpt-4o")
                (openAIBodyWith (lit "gpt-4o") (lit "S") [openAITextPart (lit "U")]) []
                eq_refl)
      as (_ & _ & H & _).
    apply (H (mkHttpException (Some (429, lit "rate limited"))
                (mkError (lit "Error") (lit "HTTP POST failed with status 429")))
             429 (lit "rate limited")); reflexivity.
  - destruct (callers_raise_http_error Examples.host Examples.bedrockPrefs
                (Fixture.scripted [Examples.refuse 429 (lit "rate limited")])
                (mkConfig (lit "bedrock") (lit "bedrock-key")
                   (lit "us.anthropic.claude-sonnet-4-5-20250929-v1:0")
                   (lit "us-east-1") empty)
                (lit "m")
                (bedrockBodyWith (lit "S") [textPart (lit "U")]) []
                eq_refl)
      as (_ & _ & _ & _ & _ & H & _).
    apply (H (lit "m")
             (mkHttpException (Some (429, lit "rate limited"))
                (mkError (lit "Error") (lit "HTTP POST failed with status 429")))
             429 (lit "rate limited")); reflexivity.
Defined.

(** C8 as stated fails: 201 is a success status, the request resolves
    with a well-formed reply, and [callOpenAI] raises the HTTP error all
    the same, as does [callBedrock]. *)
Lemma created_status_raises_http_error :
  isSuccessStatus 201 = true
  /\ fst (callOpenAI Examples.host Examples.openaiPrefs
            (Fixture.scripted [Examples.respond 201 Examples.paddedReply])
            (lit "gpt-4o") (openAIBodyWith (lit "gpt-4o") (lit "S") [openAITextPart (lit "U")]) [])
     = Throws (httpError (lit "OpenAI") 201 (Fixture.stringify Examples.paddedReply))
  /\ fst (callBedrock Examples.host Examples.bedrockPrefs
            (Fixture.scripted [Examples.respond 201 Examples.converseReply])
            (lit "m") (bedrockBodyWith (lit "S") [textPart (lit "U")]) [])
     = Throws (httpError (lit "Bedrock") 201 (Fixture.stringify Examples.converseReply)).
Proof. repeat split; vm_compute; reflexivity. Qed.

(* ----------------------------------------------------------------- *)
(** ** The dispatcher and the fallback *)

Lemma callModel_run (host : Host) (prefs : PrefStore) (network : Network)
  (cfg : Config) (systemPrompt userText : jsstring) (image : option jsstring)
  (log : list HttpRequest) :
  getConfig prefs = Returns cfg ->
  callModel host prefs network systemPrompt userText image log
  = if JsStr.eqb (provider cfg) (lit "openai")
    then callOpenAI host prefs network (modelId cfg)
           (buildOpenAIBody systemPrompt userText image (modelId cfg)) log
    else callBedrock host prefs network (modelId cfg)
           (buildBedrockBody systemPrompt userText image) log.
Proof.
  intros Hcfg. unfold callModel, bind, lift. rewrite Hcfg.
  destruct (JsStr.eqb _ _); reflexivity.
Qed.

(** A call of the model adds to the log nothing, or the one request that
    carries the body built for its arguments. *)
Lemma callModel_sends (host : Host) (prefs : PrefStore) (network : Network)
  (cfg : Config) (systemPrompt userText : jsstring) (image : option jsstring)
  (log : list HttpRequest) :
  getConfig prefs = Returns cfg ->
  sendsOnly host (requestBodyFor cfg systemPrompt userText image) log
    (snd (callModel host prefs network systemPrompt userText image log)).
Proof.
  intros Hcfg. rewrite (callModel_run _ _ _ _ _ _ _ _ Hcfg).
  unfold sendsOnly, requestBodyFor.
  destruct (JsStr.eqb _ _).
  - rewrite (callOpenAI_run _ _ _ _ Hcfg). cbn [snd].
    right. eexists. split; reflexivity.
  - rewrite (callBedrock_run _ _ _ _ Hcfg).
    destruct (encodeURIComponent host (modelId cfg)); cbn [snd].
    + right. eexists. split; reflexivity.
    + now left.
Qed.

Lemma callModel_unconfigured (host : Host) (prefs : PrefStore) (network : Network)
  (e : JsError) (systemPrompt userText : jsstring) (image : option jsstring)
  (log : list HttpRequest) :
  getConfig prefs = Throws e ->
  callModel host prefs network systemPrompt userText image log = (Throws e, log).
Proof. intros H. unfold callModel, bind, lift. now rewrite H. Qed.

Lemma callModel_at_most_one (host : Host) (prefs : PrefStore) (network : Network)
  (systemPrompt userText : jsstring) (image : option jsstring)
  (log : list HttpRequest) :
  atMostOneRequest log
    (snd (callModel host prefs network systemPrompt userText image log)).
Proof.
  destruct (getConfig prefs) as [cfg|e] eqn:Hcfg.
  - destruct (callModel_sends host prefs network cfg systemPrompt userText image log Hcfg)
      as [H|(r & H & _)]; [now left | right; now exists r].
  - rewrite (callModel_unconfigured _ _ _ _ _ _ _ _ Hcfg). now left.
Qed.

Lemma messageOf_configError (e : JsError) :
  isConfigError e -> messageOf e = err_message e.
Proof. intros [-> | ->]; reflexivity. Qed.

(** The prompt for a page with a screenshot is never the prompt without. *)
Lemma prompts_differ (targetLanguage : jsstring) (singleWord : bool) :
  buildSystemPrompt targetLanguage singleWord false
  <> buildSystemPrompt targetLanguage singleWord true.
Proof.
  unfold buildSystemPrompt.
  destruct singleWord; cbn [andb negb]; intros H;
    do 2 apply app_inv_head in H; revert H;
    apply eqb_neq; vm_compute; reflexivity.
Qed.

Lemma snd_trimmed (host : Host) (run : Outcome JsValue * list HttpRequest) :
  snd (trimmed host run) = snd run.
Proof. destruct run as [[result|e] log]; reflexivity. Qed.

(** [translateText] under a valid configuration: the first attempt, its
    text trimmed, and the handler on any exception of the two. *)
Lemma translateText_run (host : Host) (prefs : PrefStore) (network : Network)
  (cfg : Config) (input : TranslationInput) (log : list HttpRequest) :
  getConfig prefs = Returns cfg ->
  translateText host prefs network input log
  = match firstAttempt host prefs network input log with
    | (Returns result, log1) =>
        match trimResult host result with
        | Returns s => (Returns s, log1)
        | Throws e => afterFailure host prefs network input e log1
        end
    | (Throws e, log1) => afterFailure host prefs network input e log1
    end.
Proof.
  intros Hcfg.
  unfold translateText, afterFailure, trimmed, retryAttempt, firstAttempt,
    firstPrompt, fallbackPrompt, userTextOf, targetLanguageOf, attachedImage,
    mentionsImage, bind, tryCatch, lift, throw.
  rewrite Hcfg.
  destruct (callModel host prefs network _ _ _ log) as [[result|e] log1].
  - destruct (trimResult host result) as [s|e]; [reflexivity|].
    destruct (present (pageScreenshot input) && _); [|reflexivity].
    destruct (callModel host prefs network _ _ None log1) as [[r|e'] log2]; reflexivity.
  - destruct (present (pageScreenshot input) && _); [|reflexivity].
    destruct (callModel host prefs network _ _ None log1) as [[r|e'] log2]; reflexivity.
Qed.

Lemma translateText_unconfigured (host : Host) (prefs : PrefStore) (network : Network)
  (e : JsError) (input : TranslationInput) (log : list HttpRequest) :
  getConfig prefs = Throws e ->
  translateText host prefs network input log = (Throws e, log).
Proof. intros H. unfold translateText, bind, lift. now rewrite H. Qed.

(** C1, as the code has it.  When the first call of the model fails, and
    an image was attached to it, and the message of the error contains
    image or Image, [translateText] calls the model once more, without the
    image, and its outcome is the outcome of that call, the text trimmed;
    each of the two calls sends at most one request.  When no image was
    attached, or the message contains neither word, [translateText]
    rejects with the error of the first call and the log is left as the
    first call left it. *)
Theorem translateText_fallback
  (host : Host) (prefs : PrefStore) (network : Network)
  (input : TranslationInput) (log log1 : list HttpRequest) (e : JsError)
  (Hfirst : firstAttempt host prefs network input log = (Throws e, log1)) :
  atMostOneRequest log log1
  /\ (present (pageScreenshot input) = true -> mentionsImage e = true ->
        translateText host prefs network input log
        = trimmed host (retryAttempt host prefs network input log1)
        /\ atMostOneRequest log1 (snd (translateText host prefs network input log)))
  /\ (present (pageScreenshot input) = false \/ mentionsImage e = false ->
        translateText host prefs network input log = (Throws e, log1)).
Proof.
  split.
  { pose proof (callModel_at_most_one host prefs network (firstPrompt prefs input)
                  (userTextOf input) (attachedImage input) log) as H.
    fold (firstAttempt host prefs network input) in H.
    now rewrite Hfirst in H. }
  destruct (getConfig prefs) as [cfg|e0] eqn:Hcfg.
  - rewrite (translateText_run _ _ _ _ _ _ Hcfg), Hfirst. unfold afterFailure.
    split.
    + intros -> ->. cbn [andb]. split; [reflexivity|].
      rewrite snd_trimmed. apply callModel_at_most_one.
    + intros [-> | ->]; [reflexivity | now rewrite andb_false_r].
  - rewrite (translateText_unconfigured _ _ _ _ _ _ Hcfg).
    unfold firstAttempt in Hfirst.
    rewrite (callModel_unconfigured _ _ _ _ _ _ _ _ Hcfg) in Hfirst.
    inversion Hfirst; subst e0 log1.
    split; [|reflexivity].
    intros _ Himg. exfalso.
    apply getConfig_throws in Hcfg as [Hce _].
    unfold mentionsImage in Himg.
    rewrite (messageOf_configError _ Hce), (configError_not_about_images _ Hce) in Himg.
    discriminate.
Qed.

(** C6, as the code has it.  Every string [translateText] returns is
    trimmed. *)
Theorem translateText_returns_trimmed
  (host : Host) (prefs : PrefStore) (network : Network)
  (input : TranslationInput) (log log' : list HttpRequest) (s : jsstring)
  (Hrun : translateText host prefs network input log = (Returns s, log')) :
  trim s = s.
Proof.
  assert (Htrim : forall result t, trimResult host result = Returns t -> trim t = t).
  { intros [| | | |r| |] t H; inversion H. apply trim_idempotent. }
  assert (Hafter : forall e log1,
             afterFailure host prefs network input e log1 = (Returns s, log') ->
             trim s = s).
  { intros e log1. unfold afterFailure, trimmed.
    destruct (present _ && _); [|discriminate].
    destruct (retryAttempt host prefs network input log1) as [[r|e'] log2];
      [|discriminate].
    intros H. inversion H. eauto. }
  destruct (getConfig prefs) as [cfg|e0] eqn:Hcfg.
  - rewrite (translateText_run _ _ _ _ _ _ Hcfg) in Hrun.
    destruct (firstAttempt host prefs network input log) as [[result|e] log1]; [|eauto].
    destruct (trimResult host result) as [t|e] eqn:Et; [|eauto].
    inversion Hrun; subst t. eauto.
  - rewrite (translateText_unconfigured _ _ _ _ _ _ Hcfg) in Hrun. discriminate.
Qed.

(** C2, as the code has it.  The retry sends the user text of the first
    attempt and no image, under a system prompt built anew for a page
    without screenshot, which is never the prompt of the first attempt. *)
Theorem retry_rebuilds_prompt
  (host : Host) (prefs : PrefStore) (network : Network) (cfg : Config)
  (input : TranslationInput) (log log1 : list HttpRequest) (e : JsError)
  (Hcfg : getConfig prefs = Returns cfg)
  (Hshot : present (pageScreenshot input) = true)
  (Hfirst : firstAttempt host prefs network input log = (Throws e, log1))
  (Himg : mentionsImage e = true) :
  translateText host prefs network input log
  = trimmed host
      (callModel host prefs network
         (buildSystemPrompt (targetLanguageOf prefs) (isSingleWord (text input)) false)
         (userTextOf input) None log1)
  /\ sendsOnly host
       (requestBodyFor cfg
          (buildSystemPrompt (targetLanguageOf prefs) (isSingleWord (text input)) true)
          (userTextOf input) (pageScreenshot input))
       log log1
  /\ sendsOnly host
       (requestBodyFor cfg
          (buildSystemPrompt (targetLanguageOf prefs) (isSingleWord (text input)) false)
          (userTextOf input) None)
       log1 (snd (translateText host prefs network input log))
  /\ buildSystemPrompt (targetLanguageOf prefs) (isSingleWord (text input)) false
     <> buildSystemPrompt (targetLanguageOf prefs) (isSingleWord (text input)) true.
Proof.
  assert (Hrun : translateText host prefs network input log
                 = trimmed host (retryAttempt host prefs network input log1)).
  { rewrite (translateText_run _ _ _ _ _ _ Hcfg), Hfirst.
    unfold afterFailure. now rewrite Hshot, Himg. }
  split; [exact Hrun|]. split; [|split].
  - pose proof (callModel_sends host prefs network cfg (firstPrompt prefs input)
                  (userTextOf input) (attachedImage input) log Hcfg) as H.
    fold (firstAttempt host prefs network input) in H. rewrite Hfirst in H.
    unfold firstPrompt, attachedImage in H. now rewrite Hshot in H.
  - rewrite Hrun, snd_trimmed. now apply callModel_sends.
  - apply prompts_differ.
Qed.

(* ----------------------------------------------------------------- *)
(** ** The fallback on examples *)

(** C1 on a server that refuses the image in lower case: the retry is
    made and its text is the result. *)
Lemma translateText_fallback_retries :
  translateText Examples.host Examples.bedrockPrefs Examples.refusesImages
    Examples.runWithShot []
  = trimmed Examples.host
      (retryAttempt Examples.host Examples.bedrockPrefs Examples.refusesImages
         Examples.runWithShot
         (snd (firstAttempt Examples.host Examples.bedrockPrefs Examples.refusesImages
                 Examples.runWithShot [])))
  /\ fst (translateText Examples.host Examples.bedrockPrefs Examples.refusesImages
            Examples.runWithShot [])
     = Returns (lit "[v.   ] run").
Proof.
  destruct (translateText_fallback Examples.host Examples.bedrockPrefs
              Examples.refusesImages Examples.runWithShot []
              (snd (firstAttempt Examples.host Examples.bedrockPrefs
                      Examples.refusesImages Examples.runWithShot []))
              (httpError (lit "Bedrock") 400 (lit "This model does not support image input.")))
    as (_ & H & _).
  - vm_compute. reflexivity.
  - destruct (H eq_refl eq_refl) as [Heq _].
    split; [exact Heq|]. vm_compute. reflexivity.
Defined.

(** C1 as stated fails: an image was attached, the message of the error
    contains image when case is ignored, and [translateText] rejects with
    that error after the one request, where the retry would have returned
    a translation. *)
Lemma capitals_image_error_is_not_retried :
  present (pageScreenshot Examples.runWithShot) = true
  /\ mentionsImageIgnoringCase
       (httpError (lit "Bedrock") 400 (lit "IMAGE INPUT IS NOT SUPPORTED BY THIS MODEL."))
     = true
  /\ fst (firstAttempt Examples.host Examples.bedrockPrefs
            Examples.refusesImagesInCapitals Examples.runWithShot [])
     = Throws (httpError (lit "Bedrock") 400
                 (lit "IMAGE INPUT IS NOT SUPPORTED BY THIS MODEL."))
  /\ fst (translateText Examples.host Examples.bedrockPrefs
            Examples.refusesImagesInCapitals Examples.runWithShot [])
     = Throws (httpError (lit "Bedrock") 400
                 (lit "IMAGE INPUT IS NOT SUPPORTED BY THIS MODEL."))
  /\ List.length (snd (translateText Examples.host Examples.bedrockPrefs
                         Examples.refusesImagesInCapitals Examples.runWithShot []))
     = 1%nat
  /\ fst (trimmed Examples.host
            (retryAttempt Examples.host Examples.bedrockPrefs
               Examples.refusesImagesInCapitals Examples.runWithShot
               (snd (firstAttempt Examples.host Examples.bedrockPrefs
                       Examples.refusesImagesInCapitals Examples.runWithShot []))))
     = Returns (lit "[v.   ] run").
Proof. repeat split; vm_compute; reflexivity. Qed.

(** C2 on the same server: two requests, the second under the prompt for a
    word without screenshot. *)
Lemma retry_rebuilds_prompt_run :
  sendsOnly Examples.host
    (buildBedrockBody (buildSystemPrompt (lit "zh-CN") true false) (lit "Word: run") None)
    (snd (firstAttempt Examples.host Examples.bedrockPrefs Examples.refusesImages
            Examples.runWithShot []))
    (snd (translateText Examples.host Examples.bedrockPrefs Examples.refusesImages
            Examples.runWithShot [])).
Proof.
  destruct (retry_rebuilds_prompt Examples.host Examples.bedrockPrefs
              Examples.refusesImages
              (mkConfig (lit "bedrock") (lit "bedrock-key")
                 (lit "us.anthropic.claude-sonnet-4-5-20250929-v1:0")
                 (lit "us-east-1") empty)
              Examples.runWithShot []
              (snd (firstAttempt Examples.host Examples.bedrockPrefs
                      Examples.refusesImages Examples.runWithShot []))
              (httpError (lit "Bedrock") 400 (lit "This model does not support image input.")))
    as (_ & _ & H & _).
  - reflexivity.
  - reflexivity.
  - vm_compute. reflexivity.
  - reflexivity.
  - exact H.
Defined.

(** C2 as stated fails: the retry is made, and the body of its request is
    built from the prompt for a word without screenshot, which is not the
    prompt of the first request; the body the same prompt would give is
    not the one sent. *)
Lemma retry_prompt_is_not_the_first_prompt :
  fst (translateText Examples.host Examples.bedrockPrefs Examples.refusesImages
         Examples.runWithShot [])
  = Returns (lit "[v.   ] run")
  /\ map req_body
       (snd (translateText Examples.host Examples.bedrockPrefs Examples.refusesImages
               Examples.runWithShot []))
     = [Fixture.stringify
          (buildBedrockBody (buildSystemPrompt (lit "zh-CN") true true)
             (lit "Word: run") (Some Examples.pngShot));
        Fixture.stringify
          (buildBedrockBody (buildSystemPrompt (lit "zh-CN") true false)
             (lit "Word: run") None)]
  /\ buildSystemPrompt (lit "zh-CN") true false <> buildSystemPrompt (lit "zh-CN") true true
  /\ Fixture.stringify
       (buildBedrockBody (buildSystemPrompt (lit "zh-CN") true false) (lit "Word: run") None)
     <> Fixture.stringify
          (buildBedrockBody (buildSystemPrompt (lit "zh-CN") true true) (lit "Word: run") None).
Proof.
  repeat split; try (vm_compute; reflexivity);
    apply eqb_neq; vm_compute; reflexivity.
Qed.

(** C6 on a reply with blanks around its text: [translateText] returns the
    text without them. *)
Lemma translateText_returns_trimmed_hello :
  fst (translateText Examples.host Examples.openaiPrefs
         (Fixture.scripted [Examples.respond 200 Examples.paddedReply])
         (mkInput (lit "hello") None None) [])
  = Returns (lit "Hello! I am working.")
  /\ trim (lit "Hello! I am working.") = lit "Hello! I am working.".
Proof.
  split; [vm_compute; reflexivity|].
  apply (translateText_returns_trimmed Examples.host Examples.openaiPrefs
           (Fixture.scripted [Examples.respond 200 Examples.paddedReply])
           (mkInput (lit "hello") None None) []
           (snd (translateText Examples.host Examples.openaiPrefs
                   (Fixture.scripted [Examples.respond 200 Examples.paddedReply])
                   (mkInput (lit "hello") None None) []))).
  vm_compute. reflexivity.
Defined.

(** C6 as stated fails: [callModel] and [testConnection] return the text
    of the reply as the provider sent it, blanks included. *)
Lemma testConnection_returns_untrimmed :
  fst (testConnection Examples.host Examples.openaiPrefs
         (Fixture.scripted [Examples.respond 200 Examples.paddedReply]) [])
  = Returns (VStr (lit " Hello! I am working. "))
  /\ fst (callModel Examples.host Examples.openaiPrefs
            (Fixture.scripted [Examples.respond 200 Examples.paddedReply])
            (lit "S") (lit "U") None [])
     = Returns (VStr (lit " Hello! I am working. "))
  /\ trim (lit " Hello! I am working. ") <> lit " Hello! I am working. ".
Proof.
  repeat split; try (vm_compute; reflexivity).
  apply eqb_neq. vm_compute. reflexivity.
Qed.

(* ================================================================= *)
(** * Further properties of the code *)

(** ** Trimming and the readers of preferences *)

Lemma trimStart_blank_prefix (pre s : jsstring) :
  isBlank pre -> trimStart (pre ++ s) = trimStart s.
Proof.
  unfold isBlank. induction pre as [|c pre IH]; simpl; [reflexivity|].
  intros H. apply andb_true_iff in H as [Hc Hpre]. now rewrite Hc, IH.
Qed.

Lemma isBlank_rev (s : jsstring) : isBlank s -> isBlank (rev s).
Proof.
  unfold isBlank. rewrite !forallb_forall. intros H c Hc.
  apply H. now apply in_rev.
Qed.

Lemma trimEnd_blank_suffix (s post : jsstring) :
  isBlank post -> trimEnd (s ++ post) = trimEnd s.
Proof.
  intros H. unfold trimEnd. rewrite rev_app_distr.
  now rewrite (trimStart_blank_prefix _ _ (isBlank_rev _ H)).
Qed.

Lemma trim_blank_suffix (s post : jsstring) :
  isBlank post -> trim (s ++ post) = trim s.
Proof.
  intros H. unfold trim. induction s as [|c s IH]; simpl.
  - rewrite <- (app_nil_r post), (trimStart_blank_prefix post [] H). reflexivity.
  - destruct (isWhiteSpace c); [exact IH|].
    apply (trimEnd_blank_suffix (c :: s) post H).
Qed.

Lemma trim_padding (pre s post : jsstring) :
  isBlank pre -> isBlank post -> trim (pre ++ s ++ post) = trim s.
Proof.
  intros Hpre Hpost.
  transitivity (trim (s ++ post)); [|now apply trim_blank_suffix].
  unfold trim. now rewrite trimStart_blank_prefix.
Qed.

(** X1. The classification of a text does not see the blanks around it;
    a text of blanks only is a single word. *)
Theorem isSingleWord_ignores_padding (pre s post : jsstring)
  (Hpre : isBlank pre) (Hpost : isBlank post) :
  isSingleWord (pre ++ s ++ post) = isSingleWord s
  /\ isSingleWord (pre ++ post) = true.
Proof.
  split.
  - unfold isSingleWord. now rewrite trim_padding.
  - unfold isSingleWord.
    rewrite <- (app_nil_l post), (trim_padding pre [] post Hpre Hpost).
    reflexivity.
Qed.

(** X1 on two words between a tab, a space and a newline. *)
Lemma isSingleWord_ignores_padding_tabs :
  isSingleWord ([tab; space] ++ lit "two words" ++ [newline]) = isSingleWord (lit "two words")
  /\ isSingleWord ([tab; space] ++ [newline]) = true.
Proof.
  apply (isSingleWord_ignores_padding [tab; space] (lit "two words") [newline]);
    reflexivity.
Defined.

Lemma getStringPref_cases (prefs : PrefStore) (key d : jsstring) :
  getStringPref prefs key d = d
  \/ exists v,
       prefs (PREF_PREFIX ++ lit "." ++ key) = Returns (VStr v)
       /\ getStringPref prefs key d = trim v
       /\ trim v <> []
       /\ trim (getStringPref prefs key d) = getStringPref prefs key d.
Proof.
  unfold getStringPref.
  destruct (prefs (PREF_PREFIX ++ lit "." ++ key)) as [[| | | |v| |]|]; auto.
  destruct (nonEmpty v && (0 <? List.length (trim v))%nat) eqn:E; auto.
  right. exists v. apply andb_true_iff in E as [_ E].
  repeat split; [|apply trim_idempotent].
  intros Hnil. rewrite Hnil in E. discriminate.
Qed.

Lemma getStringPref_nonEmpty (prefs : PrefStore) (key d : jsstring) :
  d <> [] -> getStringPref prefs key d <> [].
Proof.
  intros Hd.
  destruct (getStringPref_cases prefs key d) as [-> | (v & _ & -> & Hv & _)];
    assumption.
Qed.

Lemma getStringPref_trimmed (prefs : PrefStore) (key : jsstring) :
  trim (getStringPref prefs key empty) = getStringPref prefs key empty.
Proof.
  destruct (getStringPref_cases prefs key empty)
    as [-> | (v & _ & _ & _ & H)]; [reflexivity | exact H].
Qed.

(** X2. A preference is read as the default or as the stored string
    trimmed; what is read from the store is never empty and has no blank
    at either end, and with a default that is not empty the result is not
    empty either. *)
Theorem getStringPref_default_or_trimmed (prefs : PrefStore) (key d : jsstring) :
  (getStringPref prefs key d = d
   \/ exists v,
        prefs (PREF_PREFIX ++ lit "." ++ key) = Returns (VStr v)
        /\ getStringPref prefs key d = trim v
        /\ trim v <> []
        /\ trim (getStringPref prefs key d) = getStringPref prefs key d)
  /\ (d <> [] -> getStringPref prefs key d <> []).
Proof.
  split; [apply getStringPref_cases | apply getStringPref_nonEmpty].
Qed.

(** X2 on a key stored between blanks, read with an empty default. *)
Lemma getStringPref_default_or_trimmed_key :
  getStringPref (Fixture.prefsOf [(lit "bedrock.apiKey", lit "  k-1 ")])
    (lit "bedrock.region") (lit "us-east-1") <> []
  /\ getStringPref (Fixture.prefsOf [(lit "bedrock.apiKey", lit "  k-1 ")])
       (lit "bedrock.apiKey") empty = lit "k-1".
Proof.
  split; [|reflexivity].
  apply (getStringPref_default_or_trimmed
           (Fixture.prefsOf [(lit "bedrock.apiKey", lit "  k-1 ")])
           (lit "bedrock.region") (lit "us-east-1")).
  discriminate.
Defined.

(** X3. In a configuration that [getConfig] returns, the API key is not
    empty and has no blank around it and the model id is not empty; an
    OpenAI configuration has an endpoint and no region, a Bedrock one a
    region and no endpoint. *)
Theorem getConfig_invariants (prefs : PrefStore) (cfg : Config)
  (Hcfg : getConfig prefs = Returns cfg) :
  apiKey cfg <> []
  /\ trim (apiKey cfg) = apiKey cfg
  /\ modelId cfg <> []
  /\ ((provider cfg = lit "openai" /\ region cfg = [] /\ openaiEndpoint cfg <> [])
      \/ (provider cfg <> lit "openai" /\ openaiEndpoint cfg = [] /\ region cfg <> [])).
Proof.
  revert Hcfg. unfold getConfig.
  destruct (JsStr.eqb _ _) eqn:Ep;
    match goal with |- context [negb (nonEmpty ?k)] => destruct (nonEmpty k) eqn:Ek end;
    cbn [negb]; intros H; inversion H; subst cfg; cbn [apiKey modelId region openaiEndpoint provider].
  - repeat split; try (apply nonEmpty_true; assumption);
      try apply getStringPref_trimmed;
      try (apply getStringPref_nonEmpty; discriminate).
    left. apply eqb_eq in Ep. repeat split; try assumption.
    apply getStringPref_nonEmpty. discriminate.
  - repeat split; try (apply nonEmpty_true; assumption);
      try apply getStringPref_trimmed;
      try (apply getStringPref_nonEmpty; discriminate).
    right. apply eqb_neq in Ep. repeat split; try assumption.
    apply getStringPref_nonEmpty. discriminate.
Qed.

(** X3 on a Bedrock key stored between blanks. *)
Lemma getConfig_invariants_padded_key :
  apiKey (mkConfig (lit "bedrock") (lit "k-1")
            (lit "us.anthropic.claude-sonnet-4-5-20250929-v1:0") (lit "us-east-1") empty)
  <> []
  /\ getConfig (Fixture.prefsOf [(lit "bedrock.apiKey", lit "  k-1 ")])
     = Returns (mkConfig (lit "bedrock") (lit "k-1")
                  (lit "us.anthropic.claude-sonnet-4-5-20250929-v1:0")
                  (lit "us-east-1") empty).
Proof.
  split; [|reflexivity].
  apply (getConfig_invariants (Fixture.prefsOf [(lit "bedrock.apiKey", lit "  k-1 ")])).
  reflexivity.
Defined.

(** ** The prompt builder *)

(** Two prompts that differ in their fixed text: either within the first
    [n] characters, before the target language, or right after it. *)
Ltac prompt_clash n H :=
  first
    [ apply (f_equal (firstn n)) in H; vm_compute in H; discriminate H
    | do 2 apply app_inv_head in H;
      apply (f_equal (firstn 3)) in H; vm_compute in H; discriminate H
    | do 2 apply app_inv_head in H; revert H;
      apply eqb_neq; vm_compute; reflexivity ].

(** X4. The four templates are four different prompts, whatever the
    target language: the prompt determines the two flags it was built
    for. *)
Theorem buildSystemPrompt_injective
  (targetLanguage : jsstring) (singleWord hasScreenshot singleWord' hasScreenshot' : bool)
  (Hsame : buildSystemPrompt targetLanguage singleWord hasScreenshot
           = buildSystemPrompt targetLanguage singleWord' hasScreenshot') :
  singleWord = singleWord' /\ hasScreenshot = hasScreenshot'.
Proof.
  revert Hsame. unfold buildSystemPrompt.
  destruct singleWord, hasScreenshot, singleWord', hasScreenshot';
    cbn [andb negb]; intros H; try (split; reflexivity); exfalso;
    prompt_clash 11%nat H.
Qed.

(** X4 on the prompt for a French word without screenshot. *)
Lemma buildSystemPrompt_injective_french :
  true = true /\ false = false.
Proof.
  apply (buildSystemPrompt_injective (lit "fr") true false true false).
  reflexivity.
Defined.

(** X5. The second revision builds four different prompts as well; the
    prompt for a page with a screenshot is never the prompt without. *)
Theorem revision2_buildSystemPrompt_injective
  (targetLanguage : jsstring) (singleWord hasScreenshot singleWord' hasScreenshot' : bool)
  (Hsame : Revision2.buildSystemPrompt targetLanguage singleWord hasScreenshot
           = Revision2.buildSystemPrompt targetLanguage singleWord' hasScreenshot') :
  singleWord = singleWord' /\ hasScreenshot = hasScreenshot'.
Proof.
  revert Hsame. unfold Revision2.buildSystemPrompt.
  destruct singleWord, hasScreenshot, singleWord', hasScreenshot';
    cbv zeta; cbn [andb negb]; intros H; try (split; reflexivity); exfalso;
    prompt_clash 40%nat H.
Qed.

(** X5 on the prompt for a French passage with a screenshot. *)
Lemma revision2_buildSystemPrompt_injective_french :
  false = false /\ true = true.
Proof.
  apply (revision2_buildSystemPrompt_injective (lit "fr") false true false true).
  reflexivity.
Defined.

(** ** Endpoint normalization, continued *)

Lemma dropLeadingSlashes_repeat (n : nat) (s : jsstring) :
  dropLeadingSlashes (repeat slash n ++ s) = dropLeadingSlashes s.
Proof. induction n as [|n IH]; simpl; [reflexivity | exact IH]. Qed.

Lemma rev_repeat_slash (n : nat) : rev (repeat slash n) = repeat slash n.
Proof.
  induction n as [|n IH]; simpl; [reflexivity|].
  rewrite IH. clear IH. induction n as [|n IH]; simpl; [reflexivity|].
  now rewrite IH.
Qed.

Lemma stripTrailingSlashes_repeat (e : jsstring) (n : nat) :
  stripTrailingSlashes (e ++ repeat slash n) = stripTrailingSlashes e.
Proof.
  unfold stripTrailingSlashes.
  now rewrite rev_app_distr, rev_repeat_slash, dropLeadingSlashes_repeat.
Qed.

(** X6. Slashes at the end of the configured endpoint, however many, do
    not change the URL that is requested, and that URL never ends with a
    slash. *)
Theorem normalizeEndpoint_ignores_trailing_slashes (e : jsstring) (n : nat) :
  normalizeEndpoint (e ++ repeat slash n) = normalizeEndpoint e
  /\ endsWith (normalizeEndpoint e) [slash] = false.
Proof.
  split.
  - unfold normalizeEndpoint. now rewrite stripTrailingSlashes_repeat.
  - destruct (normalizeEndpoint_suffix e) as [r ->].
    unfold endsWith. rewrite rev_app_distr. reflexivity.
Qed.

(** ** The Bedrock body, for every image *)

Lemma buildBedrockBody_matched
  (systemPrompt userText shot fmt data : jsstring) :
  matchDataUrl shot = Some (lit "image/" ++ fmt, data) ->
  forallb isWordChar fmt = true ->
  nonEmpty shot = true ->
  buildBedrockBody systemPrompt userText (Some shot)
  = bedrockBodyWith systemPrompt [textPart userText; bedrockImagePart fmt data].
Proof.
  intros Hm Hw Hs. unfold buildBedrockBody. rewrite Hs, Hm.
  assert (Hsplit : split slash (lit "image/" ++ fmt) = [lit "image"; fmt]).
  { simpl. rewrite (split_word _ Hw). reflexivity. }
  rewrite Hsplit. reflexivity.
Qed.

(** X7. Whatever the image argument, the Bedrock body is the text part
    alone, or the text part and one image part; in the second case the
    image is a data URI of the pattern and the part carries its format, a
    string, and its payload: the format is never undefined. *)
Theorem buildBedrockBody_shapes
  (systemPrompt userText : jsstring) (image : option jsstring) :
  buildBedrockBody systemPrompt userText image
  = bedrockBodyWith systemPrompt [textPart userText]
  \/ exists fmt data,
       image = Some (dataUri fmt data)
       /\ isFormatName fmt /\ isPayload data
       /\ buildBedrockBody systemPrompt userText image
          = bedrockBodyWith systemPrompt [textPart userText; bedrockImagePart fmt data].
Proof.
  destruct image as [shot|]; [|now left].
  destruct (nonEmpty shot) eqn:Es.
  - destruct (matchDataUrl shot) as [[g1 g2]|] eqn:Em.
    + right.
      destruct (matchDataUrl_complete _ _ _ Em) as (fmt & Hs & Hf & Hd & Hg).
      exists fmt, g2. subst g1. repeat split; try assumption; try apply Hf; try apply Hd.
      * now rewrite Hs.
      * apply buildBedrockBody_matched; [exact Em | apply Hf | exact Es].
    + left. unfold buildBedrockBody. now rewrite Es, Em.
  - left. unfold buildBedrockBody. now rewrite Es.
Qed.

(** ** The dispatcher, continued *)

Lemma getConfig_branch (prefs : PrefStore) :
  getConfig prefs
  = if JsStr.eqb (getStringPref prefs (lit "provider") (lit "bedrock")) (lit "openai")
    then openaiConfig prefs else bedrockConfig prefs.
Proof.
  unfold getConfig, openaiConfig, bedrockConfig.
  destruct (JsStr.eqb _ _); destruct (nonEmpty _); reflexivity.
Qed.

Lemma provider_is_openai (prefs : PrefStore) :
  providerPrefSelectsOpenAI prefs ->
  JsStr.eqb (getStringPref prefs (lit "provider") (lit "bedrock")) (lit "openai") = true.
Proof.
  intros (v & Hv & Ht). apply eqb_eq.
  rewrite <- Ht. apply getStringPref_string; [exact Hv|].
  rewrite Ht. discriminate.
Qed.

(** X8. When the stored provider preference reads openai once trimmed,
    [getConfig] resolves the OpenAI configuration (or raises the OpenAI
    configuration error) and [callModel] is the OpenAI builder followed by
    the OpenAI caller: the Bedrock builder and caller are not involved. *)
Theorem openai_provider_uses_openai (prefs : PrefStore)
  (Hopenai : providerPrefSelectsOpenAI prefs) :
  getConfig prefs = openaiConfig prefs
  /\ forall host network systemPrompt userText image log,
       callModel host prefs network systemPrompt userText image log
       = bind (lift (openaiConfig prefs))
           (fun cfg =>
              callOpenAI host prefs network (modelId cfg)
                (buildOpenAIBody systemPrompt userText image (modelId cfg))) log.
Proof.
  pose proof (provider_is_openai prefs Hopenai) as Hp.
  assert (Hcfg : getConfig prefs = openaiConfig prefs).
  { now rewrite getConfig_branch, Hp. }
  split; [exact Hcfg|].
  intros. unfold callModel, bind, lift. rewrite <- Hcfg.
  destruct (getConfig prefs) as [cfg|e] eqn:E; [|reflexivity].
  rewrite (getConfig_provider _ _ E), Hp. reflexivity.
Qed.

(** X8 on the provider stored with a blank after its name. *)
Lemma openai_provider_uses_openai_padded :
  getConfig Examples.blankPaddedPrefs
  = Returns (mkConfig (lit "openai") (lit "sk-test") (lit "gpt-4o") empty
               (lit "https://api.openai.com/v1/chat/completions")).
Proof.
  refine (eq_trans (proj1 (openai_provider_uses_openai Examples.blankPaddedPrefs _)) eq_refl).
  exists (lit "openai "). split; reflexivity.
Defined.

(** A call of the model under a valid configuration adds to the log
    nothing, or one request to the active provider. *)
Lemma callModel_request (host : Host) (prefs : PrefStore) (network : Network)
  (sp ut : jsstring) (image : option jsstring) (log : list HttpRequest) :
  snd (callModel host prefs network sp ut image log) = log
  \/ exists r,
       snd (callModel host prefs network sp ut image log) = log ++ [r]
       /\ sentToActiveProvider host prefs r.
Proof.
  destruct (getConfig prefs) as [cfg|e] eqn:Hcfg.
  2:{ left. now rewrite (callModel_unconfigured _ _ _ _ _ _ _ _ Hcfg). }
  pose proof (getConfig_returns _ _ Hcfg) as [Hkey _].
  pose proof (getConfig_provider _ _ Hcfg) as Hprov.
  rewrite (callModel_run _ _ _ _ _ _ _ _ Hcfg).
  unfold sentToActiveProvider. rewrite Hprov.
  pose proof Hcfg as Hb. rewrite getConfig_branch in Hb.
  destruct (JsStr.eqb _ _).
  - rewrite (callOpenAI_run _ _ _ _ Hcfg). cbn [snd].
    right. eexists. split; [reflexivity|].
    unfold openAIRequest, requestHeaders. cbn [req_method req_responseType req_headers req_url].
    rewrite Hkey. repeat split.
    unfold openaiConfig in Hb. destruct (nonEmpty _); inversion Hb. reflexivity.
  - rewrite (callBedrock_run _ _ _ _ Hcfg).
    destruct (encodeURIComponent host (modelId cfg)) as [encoded|e] eqn:He; cbn [snd].
    + right. eexists. split; [reflexivity|].
      unfold bedrockRequest, requestHeaders.
      cbn [req_method req_responseType req_headers req_url].
      rewrite Hkey. repeat split.
      unfold bedrockConfig in Hb. destruct (nonEmpty _); inversion Hb; subst cfg.
      cbn [modelId region] in *. exists encoded. split; [exact He | reflexivity].
    + now left.
Qed.

Lemma afterFailure_request (host : Host) (prefs : PrefStore) (network : Network)
  (input : TranslationInput) (e : JsError) (log1 : list HttpRequest) :
  snd (afterFailure host prefs network input e log1) = log1
  \/ (present (pageScreenshot input) = true
      /\ exists r,
           snd (afterFailure host prefs network input e log1) = log1 ++ [r]
           /\ sentToActiveProvider host prefs r).
Proof.
  unfold afterFailure.
  destruct (present (pageScreenshot input)); cbn [andb]; [|now left].
  destruct (mentionsImage e); [|now left].
  rewrite snd_trimmed. unfold retryAttempt.
  destruct (callModel_request host prefs network (fallbackPrompt prefs input)
              (userTextOf input) None log1) as [H|H]; [now left | right; now split].
Qed.

(** X9. [translateText] only appends to the log of requests: at most two
    requests, at most one when the input has no screenshot, each a POST to
    the active provider that carries the key of that provider and no
    other. *)
Theorem translateText_request_budget
  (host : Host) (prefs : PrefStore) (network : Network)
  (input : TranslationInput) (log : list HttpRequest) :
  exists added,
    snd (translateText host prefs network input log) = log ++ added
    /\ (List.length added <= 2)%nat
    /\ (present (pageScreenshot input) = false -> (List.length added <= 1)%nat)
    /\ Forall (sentToActiveProvider host prefs) added.
Proof.
  destruct (getConfig prefs) as [cfg|e0] eqn:Hcfg.
  2:{ exists []. rewrite (translateText_unconfigured _ _ _ _ _ _ Hcfg).
      cbn. rewrite app_nil_r. repeat split; auto. }
  rewrite (translateText_run _ _ _ _ _ _ Hcfg).
  pose proof (callModel_request host prefs network (firstPrompt prefs input)
                (userTextOf input) (attachedImage input) log) as Hfirst.
  fold (firstAttempt host prefs network input) in Hfirst.
  destruct (firstAttempt host prefs network input log) as [o log1]. cbn [snd] in Hfirst.
  assert (Hstep : forall e,
             exists added,
               snd (afterFailure host prefs network input e log1) = log ++ added
               /\ (List.length added <= 2)%nat
               /\ (present (pageScreenshot input) = false -> (List.length added <= 1)%nat)
               /\ Forall (sentToActiveProvider host prefs) added).
  { intros e.
    destruct (afterFailure_request host prefs network input e log1)
      as [Ha | (Hp & r2 & Ha & Hr2)]; rewrite Ha;
      destruct Hfirst as [-> | (r1 & -> & Hr1)].
    - exists []. rewrite app_nil_r. repeat split; auto.
    - exists [r1]. repeat split; auto.
    - exists [r2]. repeat split; auto.
    - exists [r1; r2]. rewrite <- app_assoc. repeat split; auto.
      intros Hf. rewrite Hp in Hf. discriminate. }
  destruct o as [result|e]; [|apply Hstep].
  destruct (trimResult host result) as [s|e]; [|apply Hstep].
  cbn [snd]. destruct Hfirst as [-> | (r1 & -> & Hr1)].
  - exists []. rewrite app_nil_r. repeat split; auto.
  - exists [r1]. repeat split; auto.
Qed.

(** X10. [testConnection] is one call of the model with its two fixed
    texts and no image: the outcome of that call is its outcome, value or
    error, untrimmed and never retried, and at most one request is sent,
    to the active provider. *)
Theorem testConnection_is_one_call
  (host : Host) (prefs : PrefStore) (network : Network) (log : list HttpRequest) :
  testConnection host prefs network log
  = callModel host prefs network diagnosticPrompt diagnosticText None log
  /\ (snd (testConnection host prefs network log) = log
      \/ exists r,
           snd (testConnection host prefs network log) = log ++ [r]
           /\ sentToActiveProvider host prefs r).
Proof.
  assert (H : testConnection host prefs network log
              = callModel host prefs network diagnosticPrompt diagnosticText None log).
  { unfold testConnection, bind, lift, ret.
    destruct (getConfig prefs) as [cfg|e] eqn:Hcfg.
    - fold diagnosticPrompt diagnosticText.
      destruct (callModel host prefs network diagnosticPrompt diagnosticText None log)
        as [[v|e] l]; reflexivity.
    - now rewrite (callModel_unconfigured _ _ _ _ _ _ _ _ Hcfg). }
  split; [exact H|]. rewrite H. apply callModel_request.
Qed.

(** ** Reading the replies *)

Lemma filterTextParts_blocks (host : Host) (parts : list JsValue) :
  Forall isContentBlock parts ->
  filterTextParts host parts
  = Returns (filter (fun part => truthy (optField part (lit "text"))) parts).
Proof.
  induction 1 as [|part parts [[fields ->] _] _ IH]; [reflexivity|].
  cbn [filterTextParts filter]. rewrite IH.
  destruct (truthy _); reflexivity.
Qed.

Lemma kept_texts (parts : list JsValue) :
  Forall isContentBlock parts ->
  map (fun part => optField part (lit "text"))
    (filter (fun part => truthy (optField part (lit "text"))) parts)
  = map VStr (filter nonEmpty (map textOfPart parts)).
Proof.
  induction 1 as [|part parts [_ Htext] _ IH]; [reflexivity|].
  cbn [filter map].
  destruct Htext as [Ht | [s Ht]].
  - assert (Hs : textOfPart part = []) by (unfold textOfPart; now rewrite Ht).
    rewrite Ht, Hs. exact IH.
  - assert (Hs : textOfPart part = s) by (unfold textOfPart; now rewrite Ht).
    rewrite Ht, Hs. cbn [truthy].
    destruct (nonEmpty s); cbn [map]; rewrite ?Ht, IH; reflexivity.
Qed.

Lemma joinValues_strings (host : Host) (texts : list jsstring) :
  joinValues host [newline] (map VStr texts) = Returns (joinLines texts).
Proof.
  induction texts as [|s rest IH]; [reflexivity|].
  destruct rest as [|s' rest]; [reflexivity|].
  change (joinValues host [newline] (map VStr (s :: s' :: rest)))
    with (match joinValues host [newline] (map VStr (s' :: rest)) with
          | Throws e => Throws e
          | Returns r => Returns (s ++ [newline] ++ r)
          end).
  now rewrite IH.
Qed.

Lemma extractBedrockText_blocks (host : Host) (parts : list JsValue) :
  Forall isContentBlock parts ->
  extractBedrockText host (VArr parts)
  = Returns (VStr (joinLines (filter nonEmpty (map textOfPart parts)))).
Proof.
  intros H. unfold extractBedrockText.
  now rewrite (filterTextParts_blocks host _ H), (kept_texts _ H), joinValues_strings.
Qed.

(** X11. When the Converse request resolves with status 200 and the
    content of the reply is an array of content blocks, [callBedrock]
    returns the texts of the blocks that have one, in order, joined by
    newlines; blocks without text, or with an empty one, are skipped, and
    an empty array gives the empty string, not an error. *)
Theorem callBedrock_joins_text_blocks
  (host : Host) (prefs : PrefStore) (network : Network) (cfg : Config)
  (modelId encoded : jsstring) (requestBody : JsValue) (log : list HttpRequest)
  (xhr : Xhr) (response : JsValue) (parts : list JsValue)
  (Hcfg : getConfig prefs = Returns cfg)
  (Henc : encodeURIComponent host modelId = Returns encoded)
  (Hnet : network log (bedrockRequest host cfg encoded requestBody) = Resolved xhr)
  (Hstatus : xhr_status xhr = 200)
  (Hparse : parseResponse host xhr = Returns response)
  (Hcontent : bedrockContent response = VArr parts)
  (Hparts : Forall isContentBlock parts) :
  fst (callBedrock host prefs network modelId requestBody log)
  = Returns (VStr (joinLines (filter nonEmpty (map textOfPart parts)))).
Proof.
  rewrite (callBedrock_run _ _ _ _ Hcfg), Henc. cbv zeta. cbn [fst].
  rewrite Hnet. unfold callerOutcome, readBedrockReply.
  rewrite Hstatus, Hparse. cbn [N.eqb Pos.eqb].
  unfold bedrockContent in Hcontent. rewrite Hcontent. cbn [truthy].
  now apply extractBedrockText_blocks.
Qed.

(** X11 on a reply with one text block. *)
Lemma callBedrock_joins_text_blocks_run :
  fst (callBedrock Examples.host Examples.bedrockPrefs
         (Fixture.scripted [Examples.respond 200 Examples.converseReply])
         (lit "m") (bedrockBodyWith (lit "S") [textPart (lit "U")]) [])
  = Returns (VStr (lit "[v.   ] run")).
Proof.
  apply (callBedrock_joins_text_blocks Examples.host Examples.bedrockPrefs
           (Fixture.scripted [Examples.respond 200 Examples.converseReply])
           (mkConfig (lit "bedrock") (lit "bedrock-key")
              (lit "us.anthropic.claude-sonnet-4-5-20250929-v1:0")
              (lit "us-east-1") empty)
           (lit "m") (lit "m") (bedrockBodyWith (lit "S") [textPart (lit "U")]) []
           (mkXhr 200 (Fixture.stringify Examples.converseReply)
              (VStr (Fixture.stringify Examples.converseReply)))
           Examples.converseReply
           [VObj [(lit "text", VStr (lit "[v.   ] run"))]]);
    try reflexivity.
  constructor; [|constructor].
  split; [eexists; reflexivity | right; eexists; reflexivity].
Defined.

(** X12. A reply with status 200 that cannot be read: when [JSON.parse]
    throws, both callers throw that very exception, unwrapped; when the
    parsed reply has no content at the expected place, or a falsy one
    (null, an empty string), they throw the unexpected-response error
    with the serialized reply. *)
Theorem callers_unreadable_reply
  (host : Host) (prefs : PrefStore) (network : Network) (cfg : Config)
  (modelId : jsstring) (requestBody : JsValue) (log : list HttpRequest)
  (Hcfg : getConfig prefs = Returns cfg) :
  (forall xhr e,
     network log (openAIRequest host cfg requestBody) = Resolved xhr ->
     xhr_status xhr = 200 -> parseResponse host xhr = Throws e ->
     fst (callOpenAI host prefs network modelId requestBody log) = Throws e)
  /\ (forall xhr response,
        network log (openAIRequest host cfg requestBody) = Resolved xhr ->
        xhr_status xhr = 200 -> parseResponse host xhr = Returns response ->
        truthy (openAIContent response) = false ->
        fst (callOpenAI host prefs network modelId requestBody log)
        = Throws (newError (lit "Unexpected OpenAI response: "
                            ++ stringifyForConcat host response)))
  /\ (forall encoded xhr e,
        encodeURIComponent host modelId = Returns encoded ->
        network log (bedrockRequest host cfg encoded requestBody) = Resolved xhr ->
        xhr_status xhr = 200 -> parseResponse host xhr = Throws e ->
        fst (callBedrock host prefs network modelId requestBody log) = Throws e)
  /\ (forall encoded xhr response,
        encodeURIComponent host modelId = Returns encoded ->
        network log (bedrockRequest host cfg encoded requestBody) = Resolved xhr ->
        xhr_status xhr = 200 -> parseResponse host xhr = Returns response ->
        truthy (bedrockContent response) = false ->
        fst (callBedrock host prefs network modelId requestBody log)
        = Throws (newError (lit "Unexpected Bedrock response: "
                            ++ stringifyForConcat host response))).
Proof.
  rewrite (callOpenAI_run _ _ _ _ Hcfg), (callBedrock_run _ _ _ _ Hcfg).
  cbv zeta. cbn [fst]. unfold openAIContent, bedrockContent.
  repeat split.
  - intros xhr e -> Hs Hp. unfold callerOutcome, readOpenAIReply.
    now rewrite Hs, Hp.
  - intros xhr response -> Hs Hp Hc. unfold callerOutcome, readOpenAIReply.
    rewrite Hs, Hp. cbn [N.eqb Pos.eqb]. now rewrite Hc.
  - intros encoded xhr e -> Hn Hs Hp. cbn [fst]. rewrite Hn.
    unfold callerOutcome, readBedrockReply. now rewrite Hs, Hp.
  - intros encoded xhr response -> Hn Hs Hp Hc. cbn [fst]. rewrite Hn.
    unfold callerOutcome, readBedrockReply.
    rewrite Hs, Hp. cbn [N.eqb Pos.eqb]. now rewrite Hc.
Qed.

(** X12 on a Converse reply sent to the OpenAI caller: it has no
    choices, and the caller reports it as unexpected. *)
Lemma callers_unreadable_reply_converse :
  fst (callOpenAI Examples.host Examples.openaiPrefs
         (Fixture.scripted [Examples.respond 200 Examples.converseReply])
         (lit "gpt-4o") (openAIBodyWith (lit "gpt-4o") (lit "S") [openAITextPart (lit "U")]) [])
  = Throws (newError (lit "Unexpected OpenAI response: "
                      ++ Fixture.stringify Examples.converseReply)).
Proof.
  destruct (callers_unreadable_reply Examples.host Examples.openaiPrefs
              (Fixture.scripted [Examples.respond 200 Examples.converseReply])
              (mkConfig (lit "openai") (lit "sk-test") (lit "gpt-4o") empty
                 (lit "https://api.openai.com/v1/chat/completions"))
              (lit "gpt-4o")
              (openAIBodyWith (lit "gpt-4o") (lit "S") [openAITextPart (lit "U")]) []
              eq_refl)
    as (_ & H & _).
  apply (H (mkXhr 200 (Fixture.stringify Examples.converseReply)
              (VStr (Fixture.stringify Examples.converseReply)))
           Examples.converseReply); reflexivity.
Defined.

(** X13. A request that fails without an HTTP exchange (the exception
    carries no [xmlhttp]) makes both callers throw the error
    HTTP request failed, followed by the message of the exception or,
    when it has none, by its string form. *)
Theorem callers_wrap_transport_failure
  (host : Host) (prefs : PrefStore) (network : Network) (cfg : Config)
  (modelId : jsstring) (requestBody : JsValue) (log : list HttpRequest)
  (Hcfg : getConfig prefs = Returns cfg) :
  (forall e,
     network log (openAIRequest host cfg requestBody) = Rejected e ->
     exn_xmlhttp e = None ->
     fst (callOpenAI host prefs network modelId requestBody log)
     = Throws (newError (lit "HTTP request failed: " ++ messageOf (exn_error e))))
  /\ (forall encoded e,
        encodeURIComponent host modelId = Returns encoded ->
        network log (bedrockRequest host cfg encoded requestBody) = Rejected e ->
        exn_xmlhttp e = None ->
        fst (callBedrock host prefs network modelId requestBody log)
        = Throws (newError (lit "HTTP request failed: " ++ messageOf (exn_error e))))
  /\ (forall e, messageOf e = err_message e \/ (err_message e = [] /\ messageOf e = err_name e)).
Proof.
  rewrite (callOpenAI_run _ _ _ _ Hcfg), (callBedrock_run _ _ _ _ Hcfg).
  cbv zeta. cbn [fst].
  repeat split.
  - intros e -> He. cbn. now rewrite He.
  - intros encoded e -> Hn He. cbn [fst]. rewrite Hn. cbn. now rewrite He.
  - intros [name message]. unfold messageOf, errorToString. cbn.
    destruct message; [right | left; reflexivity].
    destruct name; split; reflexivity.
Qed.

(** X13 on a network that refuses the connection. *)
Lemma callers_wrap_transport_failure_refused :
  fst (callOpenAI Examples.host Examples.openaiPrefs (Fixture.scripted [])
         (lit "gpt-4o") (openAIBodyWith (lit "gpt-4o") (lit "S") [openAITextPart (lit "U")]) [])
  = Throws (newError (lit "HTTP request failed: connection refused")).
Proof.
  destruct (callers_wrap_transport_failure Examples.host Examples.openaiPrefs
              (Fixture.scripted [])
              (mkConfig (lit "openai") (lit "sk-test") (lit "gpt-4o") empty
                 (lit "https://api.openai.com/v1/chat/completions"))
              (lit "gpt-4o")
              (openAIBodyWith (lit "gpt-4o") (lit "S") [openAITextPart (lit "U")]) []
              eq_refl)
    as (H & _).
  apply (H (mkHttpException None (mkError (lit "Error") (lit "connection refused"))));
    reflexivity.
Defined.

(** ** [translateText], continued *)

Lemma firstAttempt_configured (host : Host) (prefs : PrefStore) (network : Network)
  (input : TranslationInput) (log log1 : list HttpRequest) (result : JsValue) :
  firstAttempt host prefs network input log = (Returns result, log1) ->
  exists cfg, getConfig prefs = Returns cfg.
Proof.
  intros H. destruct (getConfig prefs) as [cfg|e] eqn:Hcfg; [now exists cfg|].
  unfold firstAttempt in H.
  rewrite (callModel_unconfigured _ _ _ _ _ _ _ _ Hcfg) in H. discriminate.
Qed.

(** X14. When the first call of the model returns a string,
    [translateText] returns that string trimmed and the model is not
    called again: the log is left as the first call left it. *)
Theorem translateText_first_success
  (host : Host) (prefs : PrefStore) (network : Network)
  (input : TranslationInput) (log log1 : list HttpRequest) (s : jsstring)
  (Hfirst : firstAttempt host prefs network input log = (Returns (VStr s), log1)) :
  translateText host prefs network input log = (Returns (trim s), log1)
  /\ atMostOneRequest log log1.
Proof.
  destruct (firstAttempt_configured _ _ _ _ _ _ _ Hfirst) as [cfg Hcfg].
  split.
  - now rewrite (translateText_run _ _ _ _ _ _ Hcfg), Hfirst.
  - pose proof (callModel_at_most_one host prefs network (firstPrompt prefs input)
                  (userTextOf input) (attachedImage input) log) as H.
    fold (firstAttempt host prefs network input) in H. now rewrite Hfirst in H.
Qed.

(** X14 on a reply with blanks around its text. *)
Lemma translateText_first_success_hello :
  translateText Examples.host Examples.openaiPrefs
    (Fixture.scripted [Examples.respond 200 Examples.paddedReply])
    (mkInput (lit "hello") None None) []
  = (Returns (lit "Hello! I am working."),
     snd (firstAttempt Examples.host Examples.openaiPrefs
            (Fixture.scripted [Examples.respond 200 Examples.paddedReply])
            (mkInput (lit "hello") None None) [])).
Proof.
  refine (proj1 (translateText_first_success Examples.host Examples.openaiPrefs
                   (Fixture.scripted [Examples.respond 200 Examples.paddedReply])
                   (mkInput (lit "hello") None None) [] _
                   (lit " Hello! I am working. ") _)).
  vm_compute. reflexivity.
Defined.

(** X15. When the first call of the model returns a value that is not a
    string, [translateText] does not return it: the [TypeError] of
    [result.trim] is handled like a failure of the call, and without a
    screenshot [translateText] rejects with it. *)
Theorem translateText_rejects_non_string
  (host : Host) (prefs : PrefStore) (network : Network)
  (input : TranslationInput) (log log1 : list HttpRequest) (result : JsValue)
  (Hfirst : firstAttempt host prefs network input log = (Returns result, log1))
  (Hother : forall s, result <> VStr s) :
  translateText host prefs network input log
  = afterFailure host prefs network input (engineError host TrimNotCallable) log1
  /\ (present (pageScreenshot input) = false ->
      translateText host prefs network input log
      = (Throws (engineError host TrimNotCallable), log1)).
Proof.
  destruct (firstAttempt_configured _ _ _ _ _ _ _ Hfirst) as [cfg Hcfg].
  assert (H : translateText host prefs network input log
              = afterFailure host prefs network input
                  (engineError host TrimNotCallable) log1).
  { rewrite (translateText_run _ _ _ _ _ _ Hcfg), Hfirst.
    destruct result; try reflexivity. now elim (Hother s). }
  split; [exact H|].
  intros Hp. rewrite H. unfold afterFailure. now rewrite Hp.
Qed.

(** X16. An empty screenshot string is no screenshot, and the page number
    plays no part: [translateText] runs as on the same text alone. *)
Theorem translateText_ignores_empty_screenshot
  (host : Host) (prefs : PrefStore) (network : Network)
  (selected : jsstring) (page page' : option Z) (log : list HttpRequest) :
  translateText host prefs network (mkInput selected (Some []) page) log
  = translateText host prefs network (mkInput selected None page') log
  /\ translateText host prefs network (mkInput selected None page) log
     = match getConfig prefs with
       | Throws e => (Throws e, log)
       | Returns _ =>
           match callModel host prefs network
                   (buildSystemPrompt (targetLanguageOf prefs) (isSingleWord selected) false)
                   ((if isSingleWord selected then lit "Word: " else lit "Text: ") ++ selected)
                   None log with
           | (Returns result, log1) => (trimResult host result, log1)
           | (Throws e, log1) => (Throws e, log1)
           end
       end.
Proof.
  split; [reflexivity|].
  destruct (getConfig prefs) as [cfg|e] eqn:Hcfg.
  - rewrite (translateText_run _ _ _ _ _ _ Hcfg).
    unfold firstAttempt, firstPrompt, userTextOf, attachedImage, afterFailure.
    cbn [present pageScreenshot text andb].
    destruct (callModel _ _ _ _ _ _ _) as [[result|e] log1]; [|reflexivity].
    destruct (trimResult host result); reflexivity.
  - now apply translateText_unconfigured.
Qed.

(** X17. With Bedrock as provider, a screenshot that is not of the
    data-URI pattern is left out of the first request, whose system prompt
    is still the one for a page with a screenshot. *)
Theorem bedrock_drops_image_but_keeps_prompt
  (host : Host) (prefs : PrefStore) (network : Network) (cfg : Config)
  (input : TranslationInput) (shot : jsstring) (log : list HttpRequest)
  (Hcfg : getConfig prefs = Returns cfg)
  (Hbedrock : provider cfg <> lit "openai")
  (Hshot : pageScreenshot input = Some shot)
  (Hsome : shot <> [])
  (Hno : ~ matchesDataUriPattern shot) :
  sendsOnly host
    (bedrockBodyWith
       (buildSystemPrompt (targetLanguageOf prefs) (isSingleWord (text input)) true)
       [textPart (userTextOf input)])
    log (snd (firstAttempt host prefs network input log)).
Proof.
  pose proof (callModel_sends host prefs network cfg (firstPrompt prefs input)
                (userTextOf input) (attachedImage input) log Hcfg) as H.
  fold (firstAttempt host prefs network input) in H.
  unfold requestBodyFor, firstPrompt, attachedImage in H.
  apply eqb_neq in Hbedrock. rewrite Hbedrock in H.
  rewrite Hshot in H. cbn [present] in H.
  apply nonEmpty_true in Hsome. rewrite Hsome in H.
  unfold buildBedrockBody in H. rewrite Hsome, (matchDataUrl_none _ Hno) in H.
  exact H.
Qed.

(** X18. With Bedrock as provider, a model id that [encodeURIComponent]
    rejects makes both operations fail with that exception before any
    request is sent, whether a screenshot is attached or not. *)
Theorem bedrock_unencodable_model
  (host : Host) (prefs : PrefStore) (network : Network) (cfg : Config)
  (input : TranslationInput) (log : list HttpRequest) (e : JsError)
  (Hcfg : getConfig prefs = Returns cfg)
  (Hbedrock : provider cfg <> lit "openai")
  (Henc : encodeURIComponent host (modelId cfg) = Throws e) :
  translateText host prefs network input log = (Throws e, log)
  /\ testConnection host prefs network log = (Throws e, log).
Proof.
  apply eqb_neq in Hbedrock.
  assert (Hcall : forall sp ut image l,
             callModel host prefs network sp ut image l = (Throws e, l)).
  { intros. rewrite (callModel_run _ _ _ _ _ _ _ _ Hcfg), Hbedrock.
    now rewrite (callBedrock_run _ _ _ _ Hcfg), Henc. }
  split.
  - rewrite (translateText_run _ _ _ _ _ _ Hcfg).
    unfold firstAttempt, afterFailure, retryAttempt. rewrite Hcall.
    destruct (present _ && _); [|reflexivity].
    now rewrite Hcall.
  - unfold testConnection, bind, lift, ret. now rewrite Hcfg, Hcall.
Qed.

(** X15 on a reply whose content is a list of parts. *)
Lemma translateText_rejects_non_string_parts :
  fst (translateText MoreExamples.host Examples.openaiPrefs
         (Fixture.scripted [Examples.respond 200 MoreExamples.partsReply])
         (mkInput (lit "hello") None None) [])
  = Throws (mkError (lit "TypeError") (lit "result.trim is not a function")).
Proof.
  destruct (translateText_rejects_non_string MoreExamples.host Examples.openaiPrefs
              (Fixture.scripted [Examples.respond 200 MoreExamples.partsReply])
              (mkInput (lit "hello") None None) []
              (snd (firstAttempt MoreExamples.host Examples.openaiPrefs
                      (Fixture.scripted [Examples.respond 200 MoreExamples.partsReply])
                      (mkInput (lit "hello") None None) []))
              (VArr [VObj [(lit "type", VStr (lit "text")); (lit "text", VStr (lit "hi"))]]))
    as [_ H].
  - vm_compute. reflexivity.
  - discriminate.
  - rewrite (H eq_refl). reflexivity.
Defined.

(** X17 on an SVG screenshot. *)
Lemma bedrock_drops_image_but_keeps_prompt_svg :
  sendsOnly Examples.host
    (bedrockBodyWith (buildSystemPrompt (lit "zh-CN") true true)
       [textPart (lit "Word: run")])
    []
    (snd (firstAttempt Examples.host Examples.bedrockPrefs
            (Fixture.scripted [Examples.respond 200 Examples.converseReply])
            MoreExamples.svgInput [])).
Proof.
  apply (bedrock_drops_image_but_keeps_prompt Examples.host Examples.bedrockPrefs
           (Fixture.scripted [Examples.respond 200 Examples.converseReply])
           (mkConfig (lit "bedrock") (lit "bedrock-key")
              (lit "us.anthropic.claude-sonnet-4-5-20250929-v1:0")
              (lit "us-east-1") empty)
           MoreExamples.svgInput (lit "data:image/svg+xml;base64,AAAA") []).
  - reflexivity.
  - discriminate.
  - reflexivity.
  - discriminate.
  - intros (fmt & data & Hs & Hf & Hd).
    pose proof (matchDataUrl_sound fmt data Hf Hd) as Hm.
    rewrite <- Hs in Hm. vm_compute in Hm. discriminate.
Defined.

(** X18 on a model id that is a lone surrogate. *)
Lemma bedrock_unencodable_model_surrogate :
  translateText Examples.host MoreExamples.brokenModelPrefs
    (Fixture.scripted [Examples.respond 200 Examples.converseReply])
    Examples.runWithShot []
  = (Throws Fixture.uriError, [])
  /\ testConnection Examples.host MoreExamples.brokenModelPrefs
       (Fixture.scripted [Examples.respond 200 Examples.converseReply]) []
     = (Throws Fixture.uriError, []).
Proof.
  apply (bedrock_unencodable_model Examples.host MoreExamples.brokenModelPrefs
           (Fixture.scripted [Examples.respond 200 Examples.converseReply])
           (mkConfig (lit "bedrock") (lit "bedrock-key") [0xD800] (lit "us-east-1") empty)).
  - reflexivity.
  - discriminate.
  - reflexivity.
Defined.

(** ** Logging *)

(** X19. None of the logging functions throws, whatever [Zotero.log] and
    the preference store do.  [debug] records nothing unless the debug
    preference is the boolean true, and then the one line that starts with
    the prefix of the plugin and the DEBUG tag. *)
Theorem logging_never_throws
  (prefs : PrefStore) (zoteroLog : Debug.ZoteroLog) (message : jsstring)
  (err : option (JsError * option jsstring)) (recorded : list jsstring) :
  fst (Debug.log zoteroLog message recorded) = Returns tt
  /\ fst (Debug.error zoteroLog message err recorded) = Returns tt
  /\ fst (Debug.debug prefs zoteroLog message recorded) = Returns tt
  /\ (snd (Debug.debug prefs zoteroLog message recorded) = recorded
      \/ (prefs (PREF_PREFIX ++ lit ".debug") = Returns (VBool true)
          /\ snd (Debug.debug prefs zoteroLog message recorded)
             = recorded ++ [lit "[Vibe Zotero Translate] [DEBUG] " ++ message])).
Proof.
  assert (Hlog : forall m, fst (Debug.log zoteroLog m recorded) = Returns tt).
  { intros m. unfold Debug.log. destruct (zoteroLog _); reflexivity. }
  repeat split; try apply Hlog.
  - unfold Debug.debug. destruct (Debug.isDebugEnabled prefs); [apply Hlog | reflexivity].
  - unfold Debug.debug, Debug.isDebugEnabled, Debug.log.
    destruct (prefs (PREF_PREFIX ++ lit ".debug")) as [[| |[|]| | | |]|]; auto.
    destruct (zoteroLog _); auto.
Qed.

(** A debug preference stored as the string true enables nothing, and
    [error] survives a missing [Zotero.log]. *)
Lemma debug_needs_boolean_true :
  Debug.debug (Fixture.prefsOf [(lit "debug", lit "true")]) MoreExamples.working
    (lit "Invoking model...") []
  = (Returns tt, [])
  /\ Debug.error MoreExamples.unavailable (lit "Translation error") None []
     = (Returns tt, []).
Proof. split; reflexivity. Qed.

(** ** The caller of [translateText] *)

Lemma in_trim (c : unit16) (s : jsstring) : In c (trim s) -> In c s.
Proof.
  unfold trim. intros H.
  destruct (trimStart_suffix s) as [w Hw]. rewrite Hw.
  apply in_or_app. right.
  destruct (trimEnd_prefix (trimStart s)) as [w' Hw']. rewrite Hw'.
  apply in_or_app. now left.
Qed.

(** X20. The flag [performTranslation] saves a word with and the
    classification [translateText] prompts with agree on a text without
    tab that has no blank around it; otherwise they can differ, either
    way: a word between blanks is prompted as a word and saved as a
    phrase, two words around a tab are prompted as a passage and saved as
    a word. *)
Theorem savedAsSingleWord_and_isSingleWord :
  (forall context,
     Translate.savedAsSingleWord context = true ->
     ~ In tab (Translate.text context) ->
     isSingleWord (text (Translate.translationInput context)) = true)
  /\ (forall context,
        trim (Translate.text context) = Translate.text context ->
        isSingleWord (text (Translate.translationInput context)) = true ->
        Translate.savedAsSingleWord context = true)
  /\ (exists context,
        isSingleWord (text (Translate.translationInput context)) = true
        /\ Translate.savedAsSingleWord context = false)
  /\ (exists context,
        isSingleWord (text (Translate.translationInput context)) = false
        /\ Translate.savedAsSingleWord context = true).
Proof.
  repeat split.
  - intros [t shot page]. unfold Translate.savedAsSingleWord, isSingleWord. cbn.
    change (lit " ") with [space].
    rewrite !andb_true_iff, !negb_true_iff, <- !not_true_iff_false, !includes_single.
    intros [Hs Hn] Ht. repeat split; intros H; apply in_trim in H; contradiction.
  - intros [t shot page]. unfold Translate.savedAsSingleWord, isSingleWord. cbn.
    intros ->. change (lit " ") with [space].
    rewrite !andb_true_iff. tauto.
  - exists (Translate.mkContext (lit " solo ") None None). split; reflexivity.
  - exists (Translate.mkContext (lit "a" ++ [tab] ++ lit "b") None None).
    split; reflexivity.
Qed.

(** X20 on the word run. *)
Lemma savedAsSingleWord_and_isSingleWord_run :
  isSingleWord (lit "run") = true.
Proof.
  destruct savedAsSingleWord_and_isSingleWord as (H & _).
  apply (H (Translate.mkContext (lit "run") None None)).
  - reflexivity.
  - intros [E|[E|[E|[]]]]; discriminate E.
Defined.

(** X21. The popup position read from the preferences is always one of
    the five known positions: a stored string that is one of them, as it
    stands, is returned, and anything else gives popup. *)
Theorem getPopupPosition_is_known (prefs : PrefStore) :
  In (Translate.getPopupPosition prefs) popupPositions
  /\ (forall v,
        prefs (PREF_PREFIX ++ lit ".popupPosition") = Returns (VStr v) ->
        In v popupPositions -> Translate.getPopupPosition prefs = v)
  /\ (forall v,
        prefs (PREF_PREFIX ++ lit ".popupPosition") = Returns (VStr v) ->
        ~ In v popupPositions -> Translate.getPopupPosition prefs = lit "popup").
Proof.
  assert (Hex : forall v, existsb (JsStr.eqb v) popupPositions = true <-> In v popupPositions).
  { intros v. rewrite existsb_exists. split.
    - intros (x & Hx & E). apply eqb_eq in E. now subst.
    - intros H. exists v. split; [exact H | now apply eqb_eq]. }
  unfold Translate.getPopupPosition. fold popupPositions.
  repeat split.
  - destruct (prefs _) as [[| | | |v| |]|]; try (now left).
    destruct (existsb (JsStr.eqb v) popupPositions) eqn:E; [now apply Hex | now left].
  - intros v -> Hv. apply Hex in Hv. now rewrite Hv.
  - intros v -> Hv.
    destruct (existsb (JsStr.eqb v) popupPositions) eqn:E; [|reflexivity].
    apply Hex in E. contradiction.
Qed.

(** X21 on a known position stored with a blank after it. *)
Lemma getPopupPosition_is_known_padded :
  Translate.getPopupPosition (Fixture.prefsOf [(lit "popupPosition", lit "top-left ")])
  = lit "popup".
Proof.
  destruct (getPopupPosition_is_known
              (Fixture.prefsOf [(lit "popupPosition", lit "top-left ")])) as (_ & _ & H).
  apply (H (lit "top-left ")); [reflexivity|].
  intros [E|[E|[E|[E|[E|[]]]]]]; discriminate E.
Defined.

(** ** The CSV export *)

Lemma undoubleQuotes_doubleQuotes (s : jsstring) :
  undoubleQuotes (Wordbook.doubleQuotes s) = s.
Proof.
  induction s as [|c s IH]; [reflexivity|].
  cbn [Wordbook.doubleQuotes].
  destruct (N.eqb_spec c dquote) as [->|Hc].
  - cbn. now rewrite IH.
  - cbn [undoubleQuotes]. apply N.eqb_neq in Hc. now rewrite Hc, IH.
Qed.

Lemma doubleQuotes_length (s : jsstring) :
  (List.length s <= List.length (Wordbook.doubleQuotes s))%nat.
Proof.
  induction s as [|c s IH]; [apply le_n|].
  cbn [Wordbook.doubleQuotes]. destruct (c =? dquote); cbn [List.length].
  - apply le_n_S, le_S, IH.
  - apply le_n_S, IH.
Qed.

(** X22. Reading back a field that [csvEscape] wrote gives the string
    that was escaped, and a string is written as it stands exactly when it
    holds no comma, no double quote and no newline. *)
Theorem csvEscape_round_trip (s : jsstring) :
  csvFieldValue (Wordbook.csvEscape s) = s
  /\ (Wordbook.csvEscape s = s
      <-> ~ In 44 s /\ ~ In dquote s /\ ~ In newline s).
Proof.
  unfold Wordbook.csvEscape. change (lit ",") with (@cons unit16 44 (@nil unit16)).
  match goal with |- context [if ?b then _ else _] => destruct b eqn:E end.
  - split.
    + cbn [app csvFieldValue]. rewrite N.eqb_refl, removelast_last.
      apply undoubleQuotes_doubleQuotes.
    + split.
      * intros H. apply (f_equal (@List.length unit16)) in H.
        cbn [app List.length] in H. rewrite length_app in H. cbn [List.length] in H.
        pose proof (doubleQuotes_length s) as Hl.
        exfalso. revert H Hl. generalize (List.length (Wordbook.doubleQuotes s)).
        generalize (List.length s). intros a b H Hl.
        rewrite Nat.add_1_r in H. subst a.
        exact (Nat.nle_succ_diag_l _ (Nat.le_trans _ _ _ (le_S _ _ (le_n _)) Hl)).
      * rewrite <- !includes_single. intros (H1 & H2 & H3).
        apply not_true_iff_false in H1, H2, H3.
        rewrite H1, H2, H3 in E. discriminate.
  - apply orb_false_iff in E as [E E3]. apply orb_false_iff in E as [E1 E2].
    split.
    + destruct s as [|c r]; [reflexivity|]. cbn [csvFieldValue].
      destruct (N.eqb_spec c dquote) as [->|_]; [|reflexivity].
      cbn in E2. discriminate.
    + split; [|reflexivity]. intros _.
      rewrite <- !includes_single, E1, E2, E3. repeat split; discriminate.
Qed.

(** X23. When the preference for page context is the boolean false,
    whatever screenshot was captured is left out: [translateText] on the
    prepared input sends at most one request, whose body holds the text
    alone under the prompt without screenshot.  With any other value of
    the preference (unset, true, a string) the context carries the
    screenshot and the page number that were captured. *)
Theorem disabled_context_sends_no_image
  (host : Host) (prefs : PrefStore) (network : Network) (cfg : Config)
  (captured : option jsstring * option Z) (selected : jsstring)
  (log : list HttpRequest)
  (Hcfg : getConfig prefs = Returns cfg) :
  let context := Translate.prepareContext prefs captured selected in
  (prefs (PREF_PREFIX ++ lit ".enableContext") = Returns (VBool false) ->
   sendsOnly host
     (requestBodyFor cfg
        (buildSystemPrompt (targetLanguageOf prefs) (isSingleWord selected) false)
        ((if isSingleWord selected then lit "Word: " else lit "Text: ") ++ selected)
        None)
     log
     (snd (translateText host prefs network (Translate.translationInput context) log)))
  /\ (prefs (PREF_PREFIX ++ lit ".enableContext") <> Returns (VBool false) ->
      Translate.translationInput context = mkInput selected (fst captured) (snd captured)).
Proof.
  cbv zeta. unfold Translate.prepareContext, Translate.translationInput.
  split.
  - intros ->. cbn [Translate.text Translate.pageScreenshot Translate.pageNumber].
    rewrite (translateText_run _ _ _ _ _ _ Hcfg).
    unfold firstAttempt, firstPrompt, userTextOf, attachedImage, afterFailure.
    cbn [present pageScreenshot text andb].
    pose proof (callModel_sends host prefs network cfg
                  (buildSystemPrompt (targetLanguageOf prefs) (isSingleWord selected) false)
                  ((if isSingleWord selected then lit "Word: " else lit "Text: ") ++ selected)
                  None log Hcfg) as H.
    destruct (callModel _ _ _ _ _ _ _) as [[result|e] log1]; cbn [snd] in *; [|exact H].
    destruct (trimResult host result); exact H.
  - intros Hne. destruct captured as [shot page].
    destruct (prefs (PREF_PREFIX ++ lit ".enableContext")) as [[| |[|]| | | |]|];
      try reflexivity.
    now elim Hne.
Qed.

(** X23 on a captured PNG of page 3, the context switched off. *)
Lemma disabled_context_sends_no_image_run :
  sendsOnly Examples.host
    (buildBedrockBody (buildSystemPrompt (lit "zh-CN") true false) (lit "Word: run") None)
    []
    (snd (translateText Examples.host MoreExamples.contextOffPrefs
            (Fixture.scripted [Examples.respond 200 Examples.converseReply])
            (Translate.translationInput
               (Translate.prepareContext MoreExamples.contextOffPrefs
                  (Some Examples.pngShot, Some 3%Z) (lit "run")))
            [])).
Proof.
  destruct (disabled_context_sends_no_image Examples.host MoreExamples.contextOffPrefs
              (Fixture.scripted [Examples.respond 200 Examples.converseReply])
              (mkConfig (lit "bedrock") (lit "bedrock-key")
                 (lit "us.anthropic.claude-sonnet-4-5-20250929-v1:0")
                 (lit "us-east-1") empty)
              (Some Examples.pngShot, Some 3%Z) (lit "run") [] eq_refl)
    as [H _].
  apply H. reflexivity.
Defined.
